(** * create_TIPMIP_emission_file.py: a shallow embedding and its properties

    The script fills a monthly time axis (time bounds, midpoint, packed date)
    and a (time, lat, lon) CO2 flux array by two nested loops, then writes the
    array into a template dataset.  The embedding keeps the arrays as lists
    that are updated by index, the Python exceptions as an error monad, and
    the arithmetic behind an interface with two instances: IEEE binary64 (what
    the interpreter computes) and exact rationals (the arithmetic the unit
    conversion is meant to approximate). *)

From Stdlib Require Import ZArith QArith Qfield Qround Qabs List Lia Bool.
From Stdlib Require Import PrimFloat Uint63 SpecFloat FloatOps FloatAxioms.
From stdpp Require Import base option list strings gmap.
Import ListNotations.

Local Open Scope Z_scope.

(** ** Exceptions *)

Inductive exn : Type :=
| IndexError
| ValueError
| KeyError
| FileNotFoundError
| OSError.

Inductive result (A : Type) : Type :=
| Ok (a : A)
| Raise (e : exn).
Arguments Ok {A} a.
Arguments Raise {A} e.

Definition bind {A B : Type} (m : result A) (k : A -> result B) : result B :=
  match m with
  | Ok a => k a
  | Raise e => Raise e
  end.

Notation "'let*' x ':=' m 'in' k" := (bind m (fun x => k))
  (at level 10, x name, m at level 100, k at level 200).

Fixpoint foldM {A S : Type} (f : A -> S -> result S) (l : list A) (s : S)
  : result S :=
  match l with
  | [] => Ok s
  | a :: l' => let* s' := f a s in foldM f l' s'
  end.

(** ** Arithmetic interface *)

Class Arith (F : Type) : Type := {
  of_int : Z -> F;          (* Python int (or numpy integer) to float *)
  lit : Q -> F;             (* a decimal literal of the source text *)
  add : F -> F -> F;
  sub : F -> F -> F;
  mul : F -> F -> F;
  div : F -> F -> F
}.

(** binary64: integers convert by rounding to nearest, a decimal literal is
    the double nearest to its value (the quotient of two exactly represented
    integers, correctly rounded). *)
Definition Z2F (z : Z) : float :=
  match z with
  | Z0 => PrimFloat.zero
  | Zpos _ => PrimFloat.of_uint63 (Uint63.of_Z z)
  | Zneg p => PrimFloat.opp (PrimFloat.of_uint63 (Uint63.of_Z (Zpos p)))
  end.

Definition Q2F (q : Q) : float :=
  PrimFloat.div (Z2F (Qnum q)) (Z2F (Zpos (Qden q))).

#[export] Instance binary64 : Arith float := {|
  of_int := Z2F;
  lit := Q2F;
  add := PrimFloat.add;
  sub := PrimFloat.sub;
  mul := PrimFloat.mul;
  div := PrimFloat.div
|}.

#[export] Instance exact : Arith Q := {|
  of_int := inject_Z;
  lit := fun q => q;
  add := Qplus;
  sub := Qminus;
  mul := Qmult;
  div := Qdiv
|}.

(** ** Fixed-width integers *)

Definition wrap (bits : Z) (z : Z) : Z :=
  (z + 2 ^ (bits - 1)) mod 2 ^ bits - 2 ^ (bits - 1).

Definition int32 : Z -> Z := wrap 32.
Definition int64 : Z -> Z := wrap 64.

(** ** numpy arrays as lists *)

(** A Python index into a sequence of length [n]: negative indices count
    from the end, anything else out of range raises IndexError. *)
Definition np_index (n : nat) (i : Z) : result nat :=
  if (0 <=? i) && (i <? Z.of_nat n) then Ok (Z.to_nat i)
  else if (- Z.of_nat n <=? i) && (i <? 0) then Ok (Z.to_nat (i + Z.of_nat n))
  else Raise IndexError.

Definition getitem {A : Type} (l : list A) (i : Z) : result A :=
  let* k := np_index (length l) i in
  match l !! k with
  | Some x => Ok x
  | None => Raise IndexError
  end.

Definition setitem {A : Type} (l : list A) (i : Z) (v : A) : result (list A) :=
  let* k := np_index (length l) i in
  Ok (<[k := v]> l).

(** a[i, j] and a[i, j] = v on a 2-d array (a list of rows) *)
Definition getitem2 {A : Type} (a : list (list A)) (i j : Z) : result A :=
  let* row := getitem a i in getitem row j.

Definition setitem2 {A : Type} (a : list (list A)) (i j : Z) (v : A)
  : result (list (list A)) :=
  let* row := getitem a i in
  let* row' := setitem row j v in
  setitem a i row'.

(** a[:, j] *)
Fixpoint column {A : Type} (a : list (list A)) (j : Z) : result (list A) :=
  match a with
  | [] => Ok []
  | row :: a' =>
      let* x := getitem row j in
      let* c := column a' j in
      Ok (x :: c)
  end.

(** Broadcasting a 1-d operand (a scalar behaves like a length-1 operand)
    over a row of length [n]. *)
Definition broadcast_row {A : Type} (v : list A) (n : nat) : result (list A) :=
  match v with
  | [x] => Ok (replicate n x)
  | _ => if Nat.eqb (length v) n then Ok v else Raise ValueError
  end.

Fixpoint broadcast_rows {A : Type} (v : list A) (old : list (list A))
  : result (list (list A)) :=
  match old with
  | [] => Ok []
  | row :: old' =>
      let* r := broadcast_row v (length row) in
      let* rs := broadcast_rows v old' in
      Ok (r :: rs)
  end.

(** a[i, :, :] = v *)
Definition setslice {A : Type} (a : list (list (list A))) (i : Z) (v : list A)
  : result (list (list (list A))) :=
  let* old := getitem a i in
  let* new := broadcast_rows v old in
  setitem a i new.

Definition getitem3 {A : Type} (a : list (list (list A))) (i j k : Z)
  : result A :=
  let* sl := getitem a i in getitem2 sl j k.

Definition np_zeros {A : Type} (zero : A) (n : nat) : list A := replicate n zero.

(** np.cumsum on integers (64-bit accumulation) *)
Fixpoint cumsum_from (acc : Z) (l : list Z) : list Z :=
  match l with
  | [] => []
  | x :: l' => let acc' := int64 (acc + x) in acc' :: cumsum_from acc' l'
  end.

Definition np_cumsum (l : list Z) : list Z := cumsum_from 0 l.

(** range(a, b) *)
Definition range (a b : Z) : list Z := seqZ a (b - a).

Definition np_sum {F : Type} `{Arith F} (l : list F) : F :=
  fold_left add l (of_int 0).

(** ** The script: constants *)

Definition nyears : Z := 250.
Definition nmonth : Z := nyears * 12.
Definition nlon : Z := 144.
Definition nlat : Z := 96.
Definition dayim : list Z := [31; 28; 31; 30; 31; 30; 31; 31; 30; 31; 30; 31].
Definition days : list Z :=
  map (fun d => int64 (d + 1)) (np_cumsum (0 :: removelast dayim)).
Definition daye : list Z := np_cumsum dayim.
Definition date_mint : list Z :=
  [116; 215; 316; 416; 516; 616; 716; 816; 916; 1016; 1116; 1216].

Record State (F : Type) : Type := mkState {
  time_bnds : list (list F);          (* shape (2, nmonth) *)
  time : list F;                      (* shape (nmonth,) *)
  date : list Z;                      (* shape (nmonth,), int32 *)
  co2flx : list (list (list F))       (* shape (nmonth, nlat, nlon) *)
}.
Arguments mkState {F}.
Arguments time_bnds {F}.
Arguments time {F}.
Arguments date {F}.
Arguments co2flx {F}.

Section Script.
Context {F : Type} `{Arith F}.

(** [areavar.sum().values], the total of the grid-cell-area field, and the
    value of the script's [start_year] setting (1 in the source). *)
Variable totarea : F.
Variable start_year : Z.

Definition TCRE : F := lit 1.32.
Definition E : F := div (mul (of_int 1000) (lit 0.02)) TCRE.
Definition Edata : list (list F) :=
  replicate (Z.to_nat (250 * 12)) [mul (lit 1) E].

(** the arrays as allocated, for [m] months on an [la] x [lo] grid *)
Definition zeros_state (m la lo : nat) : State F :=
  mkState (np_zeros (np_zeros (of_int 0) m) 2)
          (np_zeros (of_int 0) m)
          (np_zeros 0 m)
          (np_zeros (np_zeros (np_zeros (of_int 0) lo) la) m).

Definition init_state : State F :=
  zeros_state (Z.to_nat nmonth) (Z.to_nat nlat) (Z.to_nat nlon).

(** the body of the inner loop *)
Definition month_body (iy im : Z) (s : State F) : result (State F) :=
  let idx := (iy - 1) * 12 + im - 1 in
  let* ds := getitem days (im - 1) in
  let* tb := setitem2 (time_bnds s) 0 idx
               (of_int (int64 (int64 (365 * (iy - 1) + ds) - 1))) in
  let* de := getitem daye (im - 1) in
  let* tb := setitem2 tb 1 idx (of_int (int64 (365 * (iy - 1) + de))) in
  let* col := column tb idx in
  let* tm := setitem (time s) idx (div (np_sum col) (lit 2)) in
  let* dm := getitem date_mint (im - 1) in
  let* dat := setitem (date s) idx (int32 ((1850 + (iy - 1)) * 10000 + dm)) in
  if (start_year <=? iy) && (iy <? start_year + 250) then
    let* b1 := getitem2 tb 1 idx in
    let* b0 := getitem2 tb 0 idx in
    let dt := mul (sub b1 b0) (lit 86400) in
    let* e := getitem Edata (idx - (start_year - 1) * 12) in
    let v := map (fun x =>
               div (div (div (mul (mul x (lit 1e12)) (lit 3.664)) dt) totarea)
                   (of_int 12)) e in
    let* fl := setslice (co2flx s) idx v in
    Ok (mkState tb tm dat fl)
  else
    let* fl := setslice (co2flx s) idx [lit 0] in
    Ok (mkState tb tm dat fl).

Definition year_body (iy : Z) (s : State F) : result (State F) :=
  foldM (month_body iy) (range 1 13) s.

Definition fill_from (s : State F) : result (State F) :=
  foldM year_body (range 1 (nyears + 1)) s.

Definition fill : result (State F) := fill_from init_state.

(** reading the arrays after the loops *)
Definition time_bnds_at (r idx : Z) : result F :=
  let* s := fill in getitem2 (time_bnds s) r idx.
Definition time_at (idx : Z) : result F :=
  let* s := fill in getitem (time s) idx.
Definition date_at (idx : Z) : result Z :=
  let* s := fill in getitem (date s) idx.
Definition co2flx_at (idx la lo : Z) : result F :=
  let* s := fill in getitem3 (co2flx s) idx la lo.

End Script.

(** ** Facts about the array operations *)

Lemma np_index_in_range (n : nat) (i : Z) :
  0 <= i < Z.of_nat n -> np_index n i = Ok (Z.to_nat i).
Proof.
  intros Hi. unfold np_index.
  destruct (0 <=? i) eqn:H0; [|lia].
  destruct (i <? Z.of_nat n) eqn:H1; [reflexivity|lia].
Qed.

Lemma getitem_lookup {A : Type} (l : list A) (i : Z) (x : A) :
  0 <= i -> l !! Z.to_nat i = Some x -> getitem l i = Ok x.
Proof.
  intros Hi Hx. unfold getitem.
  rewrite np_index_in_range.
  - cbn [bind]. rewrite Hx. reflexivity.
  - apply lookup_lt_Some in Hx. lia.
Qed.

Lemma getitem_nth {A : Type} (l : list A) (i : Z) (d : A) :
  0 <= i < Z.of_nat (length l) -> getitem l i = Ok (nth (Z.to_nat i) l d).
Proof.
  intros Hi. apply getitem_lookup; [lia|].
  destruct (lookup_lt_is_Some_2 l (Z.to_nat i)) as [x Hx]; [lia|].
  rewrite (nth_lookup_Some _ _ d x Hx). exact Hx.
Qed.

Lemma setitem_in_range {A : Type} (l : list A) (i : Z) (v : A) :
  0 <= i < Z.of_nat (length l) -> setitem l i v = Ok (<[Z.to_nat i := v]> l).
Proof.
  intros Hi. unfold setitem. rewrite np_index_in_range by lia. reflexivity.
Qed.

Lemma getitem_replicate {A : Type} (n : nat) (x : A) (i : Z) :
  0 <= i < Z.of_nat n -> getitem (replicate n x) i = Ok x.
Proof.
  intros Hi. apply getitem_lookup; [lia|].
  apply lookup_replicate_2. lia.
Qed.

Lemma broadcast_rows_scalar {A : Type} (x z : A) (la lo : nat) :
  broadcast_rows [x] (replicate la (replicate lo z))
  = Ok (replicate la (replicate lo x)).
Proof.
  induction la as [|la IH]; [reflexivity|].
  cbn [replicate broadcast_rows broadcast_row bind].
  rewrite IH, length_replicate. reflexivity.
Qed.

Lemma getitem3_lookup {A : Type} (a : list (list (list A))) (i j k : Z)
      (sl : list (list A)) (row : list A) (x : A) :
  0 <= i -> 0 <= j -> 0 <= k ->
  a !! Z.to_nat i = Some sl -> sl !! Z.to_nat j = Some row ->
  row !! Z.to_nat k = Some x ->
  getitem3 a i j k = Ok x.
Proof.
  intros Hi Hj Hk Ha Hsl Hrow. unfold getitem3, getitem2.
  rewrite (getitem_lookup a i sl Hi Ha). cbn [bind].
  rewrite (getitem_lookup sl j row Hj Hsl). cbn [bind].
  exact (getitem_lookup row k x Hk Hrow).
Qed.

Lemma foldM_seqZ_inv {St : Type} (f : Z -> St -> result St) (P : Z -> St -> Prop)
      (len : nat) :
  forall (a : Z) (s : St),
    (forall i t, a <= i < a + Z.of_nat len -> P i t ->
                 exists t', f i t = Ok t' /\ P (i + 1) t') ->
    P a s ->
    exists s', foldM f (seqZ a (Z.of_nat len)) s = Ok s'
               /\ P (a + Z.of_nat len) s'.
Proof.
  induction len as [|len IH]; intros a s Hstep Ha.
  - exists s. split; [reflexivity|]. now replace (a + Z.of_nat 0) with a by lia.
  - rewrite seqZ_cons by lia. cbn [foldM].
    destruct (Hstep a s ltac:(lia) Ha) as (t & Hf & Ht).
    rewrite Hf. cbn [bind].
    replace (Z.pred (Z.of_nat (S len))) with (Z.of_nat len) by lia.
    destruct (IH (Z.succ a) t) as (s' & Hs' & HP).
    + intros i u Hi Hu. apply Hstep; [lia|exact Hu].
    + now replace (Z.succ a) with (a + 1) by lia.
    + exists s'. split; [exact Hs'|].
      now replace (a + Z.of_nat (S len)) with (Z.succ a + Z.of_nat len) by lia.
Qed.

Lemma getitem_0 {A : Type} (x : A) (l : list A) : getitem (x :: l) 0 = Ok x.
Proof. apply getitem_lookup; [lia|reflexivity]. Qed.

Lemma getitem_1 {A : Type} (x y : A) (l : list A) :
  getitem (x :: y :: l) 1 = Ok y.
Proof. apply getitem_lookup; [lia|reflexivity]. Qed.

Lemma setitem_0 {A : Type} (x v : A) (l : list A) :
  setitem (x :: l) 0 v = Ok (v :: l).
Proof. rewrite setitem_in_range; [reflexivity|cbn [length]; lia]. Qed.

Lemma setitem_1 {A : Type} (x y v : A) (l : list A) :
  setitem (x :: y :: l) 1 v = Ok (x :: v :: l).
Proof. rewrite setitem_in_range; [reflexivity|cbn [length]; lia]. Qed.

Lemma getitem_insert {A : Type} (l : list A) (i : Z) (v : A) :
  0 <= i < Z.of_nat (length l) -> getitem (<[Z.to_nat i := v]> l) i = Ok v.
Proof.
  intros Hi. apply getitem_lookup; [lia|].
  apply list_lookup_insert_eq. lia.
Qed.

Lemma length_days : length days = 12%nat.
Proof. reflexivity. Qed.

Lemma length_daye : length daye = 12%nat.
Proof. reflexivity. Qed.

Lemma length_date_mint : length date_mint = 12%nat.
Proof. reflexivity. Qed.

(** ** What the loops store *)

Definition nthZ (l : list Z) (i : Z) : Z := nth (Z.to_nat i) l 0.

Definition year_of (k : Z) : Z := k / 12 + 1.
Definition month_of (k : Z) : Z := k mod 12 + 1.

Section Loop.
Context {F : Type} `{Arith F}.
Variable totarea : F.
Variable start_year : Z.

(** the values written by iteration (iy, im) *)
Definition stored_tb0 (iy im : Z) : F :=
  of_int (int64 (int64 (365 * (iy - 1) + nthZ days (im - 1)) - 1)).
Definition stored_tb1 (iy im : Z) : F :=
  of_int (int64 (365 * (iy - 1) + nthZ daye (im - 1))).
Definition stored_time (iy im : Z) : F :=
  div (np_sum [stored_tb0 iy im; stored_tb1 iy im]) (lit 2).
Definition stored_date (iy im : Z) : Z :=
  int32 ((1850 + (iy - 1)) * 10000 + nthZ date_mint (im - 1)).
Definition stored_flux (iy im : Z) : F :=
  if (start_year <=? iy) && (iy <? start_year + 250) then
    div (div (div (mul (mul (mul (lit 1) E) (lit 1e12)) (lit 3.664))
                  (mul (sub (stored_tb1 iy im) (stored_tb0 iy im))
                       (lit 86400)))
             totarea)
        (of_int 12)
  else lit 0.

(** the arrays once the first [n] time steps are written; the grid is
    [nm] months by [la] by [lo] *)
Definition filled (nm la lo : nat) (n : Z) (s : State F) : Prop :=
  exists r0 r1 : list F,
    time_bnds s = [r0; r1] /\ length r0 = nm /\ length r1 = nm /\
    length (time s) = nm /\ length (date s) = nm /\
    length (co2flx s) = nm /\
    (forall k : nat, n <= Z.of_nat k < Z.of_nat nm ->
       co2flx s !! k = Some (replicate la (replicate lo (of_int 0)))) /\
    (forall k : nat, Z.of_nat k < n ->
       r0 !! k = Some (stored_tb0 (year_of (Z.of_nat k)) (month_of (Z.of_nat k))) /\
       r1 !! k = Some (stored_tb1 (year_of (Z.of_nat k)) (month_of (Z.of_nat k))) /\
       time s !! k = Some (stored_time (year_of (Z.of_nat k)) (month_of (Z.of_nat k))) /\
       date s !! k = Some (stored_date (year_of (Z.of_nat k)) (month_of (Z.of_nat k))) /\
       co2flx s !! k = Some (replicate la (replicate lo
                 (stored_flux (year_of (Z.of_nat k)) (month_of (Z.of_nat k)))))).

Lemma zeros_filled (nm la lo : nat) : filled nm la lo 0 (zeros_state nm la lo).
Proof.
  exists (replicate nm (of_int 0)), (replicate nm (of_int 0)).
  unfold zeros_state, np_zeros. cbn [time_bnds time date co2flx].
  rewrite !length_replicate.
  repeat split; try reflexivity.
  - intros k Hk. apply lookup_replicate_2. lia.
  - lia.
  - lia.
  - lia.
  - lia.
  - lia.
Qed.

Lemma year_month_of (iy im : Z) :
  1 <= im <= 12 ->
  year_of ((iy - 1) * 12 + im - 1) = iy /\ month_of ((iy - 1) * 12 + im - 1) = im.
Proof.
  intros Him. unfold year_of, month_of.
  split; Z.div_mod_to_equations; lia.
Qed.

Lemma filled_write (nm la lo : nat) (idx : Z) (s : State F) (r0 r1 : list F) :
  0 <= idx < Z.of_nat nm ->
  time_bnds s = [r0; r1] ->
  filled nm la lo idx s ->
  filled nm la lo (idx + 1)
    (mkState
       [<[Z.to_nat idx := stored_tb0 (year_of idx) (month_of idx)]> r0;
        <[Z.to_nat idx := stored_tb1 (year_of idx) (month_of idx)]> r1]
       (<[Z.to_nat idx := stored_time (year_of idx) (month_of idx)]> (time s))
       (<[Z.to_nat idx := stored_date (year_of idx) (month_of idx)]> (date s))
       (<[Z.to_nat idx := replicate la (replicate lo
             (stored_flux (year_of idx) (month_of idx)))]> (co2flx s))).
Proof.
  intros Hidx Htb (q0 & q1 & Hq & L0 & L1 & Lt & Ld & Lc & Hz & Hv).
  rewrite Htb in Hq. injection Hq as <- <-.
  exists (<[Z.to_nat idx := stored_tb0 (year_of idx) (month_of idx)]> r0),
         (<[Z.to_nat idx := stored_tb1 (year_of idx) (month_of idx)]> r1).
  cbn [time_bnds time date co2flx].
  rewrite !length_insert.
  split; [reflexivity|].
  do 5 (split; [assumption|]).
  split.
  - intros k Hk. rewrite list_lookup_insert_ne by lia. apply Hz. lia.
  - intros k Hk.
    destruct (decide (k = Z.to_nat idx)) as [->|Hne].
    + rewrite Z2Nat.id by lia.
      rewrite !list_lookup_insert_eq by lia. auto.
    + rewrite !list_lookup_insert_ne by lia. apply Hv. lia.
Qed.

Lemma setslice_zeros (a : list (list (list F))) (la lo : nat) (idx : Z) (x : F) :
  0 <= idx ->
  a !! Z.to_nat idx = Some (replicate la (replicate lo (of_int 0))) ->
  setslice a idx [x]
  = Ok (<[Z.to_nat idx := replicate la (replicate lo x)]> a).
Proof.
  intros Hidx Ha. unfold setslice.
  rewrite (getitem_lookup _ _ _ Hidx Ha). cbn [bind].
  rewrite broadcast_rows_scalar. cbn [bind].
  apply setitem_in_range. apply lookup_lt_Some in Ha. lia.
Qed.

Lemma month_body_filled (nm la lo : nat) (iy im : Z) (s : State F) :
  Z.of_nat nm <= nmonth ->
  1 <= iy -> 1 <= im <= 12 ->
  (iy - 1) * 12 + im - 1 < Z.of_nat nm ->
  filled nm la lo ((iy - 1) * 12 + im - 1) s ->
  exists s', month_body totarea start_year iy im s = Ok s'
             /\ filled nm la lo ((iy - 1) * 12 + im - 1 + 1) s'.
Proof.
  intros Hnm Hiy Him Hlt Hfilled.
  pose proof Hfilled as (r0 & r1 & Htb & L0 & L1 & Lt & Ld & Lc & Hz & _).
  destruct (year_month_of iy im Him) as [Hy Hm].
  set (idx := (iy - 1) * 12 + im - 1) in *.
  assert (Hidx : 0 <= idx) by (unfold idx; lia).
  pose proof (filled_write nm la lo idx s r0 r1 ltac:(lia) Htb Hfilled) as Hnew.
  rewrite Hy, Hm in Hnew.
  eexists. split; [|exact Hnew].
  unfold month_body. fold idx.
  rewrite (getitem_nth days (im - 1) 0) by (rewrite length_days; lia).
  cbn [bind]. rewrite Htb. unfold setitem2.
  rewrite getitem_0. cbn [bind].
  rewrite (setitem_in_range r0) by lia. cbn [bind].
  rewrite setitem_0. cbn [bind].
  rewrite (getitem_nth daye (im - 1) 0) by (rewrite length_daye; lia).
  cbn [bind]. rewrite getitem_1. cbn [bind].
  rewrite (setitem_in_range r1) by lia. cbn [bind].
  rewrite setitem_1. cbn [bind column].
  rewrite !getitem_insert by lia. cbn [bind].
  rewrite (setitem_in_range (time s)) by lia. cbn [bind].
  rewrite (getitem_nth date_mint (im - 1) 0) by (rewrite length_date_mint; lia).
  cbn [bind].
  rewrite (setitem_in_range (date s)) by lia. cbn [bind].
  assert (Hsl : co2flx s !! Z.to_nat idx
                = Some (replicate la (replicate lo (of_int 0))))
    by (apply Hz; lia).
  unfold stored_flux, stored_time, stored_date, stored_tb0, stored_tb1, nthZ.
  destruct ((start_year <=? iy) && (iy <? start_year + 250)) eqn:G.
  - apply andb_true_iff in G as [G1 G2].
    unfold getitem2. rewrite getitem_1, getitem_0. cbn [bind].
    rewrite !getitem_insert by lia. cbn [bind].
    unfold Edata. rewrite getitem_replicate by (unfold idx, nmonth, nyears in *; lia).
    cbn [bind map].
    rewrite (setslice_zeros _ la lo) by assumption.
    reflexivity.
  - rewrite (setslice_zeros _ la lo) by assumption.
    reflexivity.
Qed.

Lemma year_body_filled (nm la lo : nat) (iy : Z) (s : State F) :
  Z.of_nat nm <= nmonth ->
  1 <= iy -> iy * 12 <= Z.of_nat nm ->
  filled nm la lo ((iy - 1) * 12) s ->
  exists s', year_body totarea start_year iy s = Ok s'
             /\ filled nm la lo (iy * 12) s'.
Proof.
  intros Hnm Hiy Hle Hs. unfold year_body, range.
  destruct (foldM_seqZ_inv (month_body totarea start_year iy)
              (fun im t => filled nm la lo ((iy - 1) * 12 + im - 1) t)
              12 1 s) as (s' & Hs' & Hfin).
  - intros im t Him Ht.
    destruct (month_body_filled nm la lo iy im t Hnm Hiy ltac:(lia) ltac:(lia) Ht)
      as (t' & Ht' & Hf).
    exists t'. split; [exact Ht'|].
    now replace ((iy - 1) * 12 + (im + 1) - 1) with ((iy - 1) * 12 + im - 1 + 1) by lia.
  - now replace ((iy - 1) * 12 + 1 - 1) with ((iy - 1) * 12) by lia.
  - exists s'. split; [exact Hs'|].
    now replace (iy * 12) with ((iy - 1) * 12 + (1 + Z.of_nat 12) - 1) by lia.
Qed.

Lemma fill_from_filled (la lo : nat) (s : State F) :
  filled (Z.to_nat nmonth) la lo 0 s ->
  exists s', fill_from totarea start_year s = Ok s'
             /\ filled (Z.to_nat nmonth) la lo nmonth s'.
Proof.
  intros Hs. unfold fill_from, range.
  destruct (foldM_seqZ_inv (year_body totarea start_year)
              (fun iy t => filled (Z.to_nat nmonth) la lo ((iy - 1) * 12) t)
              250 1 s) as (s' & Hs' & Hfin).
  - intros iy t Hiy Ht.
    destruct (year_body_filled (Z.to_nat nmonth) la lo iy t)
      as (t' & Ht' & Hf);
      [unfold nmonth, nyears; lia | lia | unfold nmonth, nyears; lia | exact Ht |].
    exists t'. split; [exact Ht'|].
    now replace ((iy + 1 - 1) * 12) with (iy * 12) by lia.
  - exact Hs.
  - exists s'. split; [exact Hs'|exact Hfin].
Qed.

(** The loops run to completion and leave every array filled. *)
Lemma fill_filled :
  exists s, fill totarea start_year = Ok s
            /\ filled (Z.to_nat nmonth) (Z.to_nat nlat) (Z.to_nat nlon) nmonth s.
Proof.
  apply fill_from_filled. apply zeros_filled.
Qed.

(** *** Reading the filled arrays *)

Lemma time_bnds_at_0 (idx : Z) :
  0 <= idx < nmonth ->
  time_bnds_at totarea start_year 0 idx
  = Ok (stored_tb0 (year_of idx) (month_of idx)).
Proof.
  intros Hidx. unfold time_bnds_at.
  destruct fill_filled as (s & -> & r0 & r1 & Htb & _ & _ & _ & _ & _ & _ & Hv).
  cbn [bind]. rewrite Htb. unfold getitem2. rewrite getitem_0. cbn [bind].
  apply getitem_lookup; [lia|].
  destruct (Hv (Z.to_nat idx)) as (Hr & _); [lia|].
  rewrite Z2Nat.id in Hr by lia. exact Hr.
Qed.

Lemma time_bnds_at_1 (idx : Z) :
  0 <= idx < nmonth ->
  time_bnds_at totarea start_year 1 idx
  = Ok (stored_tb1 (year_of idx) (month_of idx)).
Proof.
  intros Hidx. unfold time_bnds_at.
  destruct fill_filled as (s & -> & r0 & r1 & Htb & _ & _ & _ & _ & _ & _ & Hv).
  cbn [bind]. rewrite Htb. unfold getitem2. rewrite getitem_1. cbn [bind].
  apply getitem_lookup; [lia|].
  destruct (Hv (Z.to_nat idx)) as (_ & Hr & _); [lia|].
  rewrite Z2Nat.id in Hr by lia. exact Hr.
Qed.

Lemma time_at_stored (idx : Z) :
  0 <= idx < nmonth ->
  time_at totarea start_year idx
  = Ok (stored_time (year_of idx) (month_of idx)).
Proof.
  intros Hidx. unfold time_at.
  destruct fill_filled as (s & -> & r0 & r1 & _ & _ & _ & _ & _ & _ & _ & Hv).
  cbn [bind]. apply getitem_lookup; [lia|].
  destruct (Hv (Z.to_nat idx)) as (_ & _ & Hr & _); [lia|].
  rewrite Z2Nat.id in Hr by lia. exact Hr.
Qed.

Lemma date_at_stored (idx : Z) :
  0 <= idx < nmonth ->
  date_at totarea start_year idx
  = Ok (stored_date (year_of idx) (month_of idx)).
Proof.
  intros Hidx. unfold date_at.
  destruct fill_filled as (s & -> & r0 & r1 & _ & _ & _ & _ & _ & _ & _ & Hv).
  cbn [bind]. apply getitem_lookup; [lia|].
  destruct (Hv (Z.to_nat idx)) as (_ & _ & _ & Hr & _); [lia|].
  rewrite Z2Nat.id in Hr by lia. exact Hr.
Qed.

Lemma co2flx_at_stored (idx la lo : Z) :
  0 <= idx < nmonth -> 0 <= la < nlat -> 0 <= lo < nlon ->
  co2flx_at totarea start_year idx la lo
  = Ok (stored_flux (year_of idx) (month_of idx)).
Proof.
  intros Hidx Hla Hlo. unfold co2flx_at.
  destruct fill_filled as (s & -> & r0 & r1 & _ & _ & _ & _ & _ & _ & _ & Hv).
  cbn [bind].
  destruct (Hv (Z.to_nat idx)) as (_ & _ & _ & _ & Hr); [lia|].
  rewrite Z2Nat.id in Hr by lia.
  eapply getitem3_lookup; [lia | lia | lia | exact Hr | |].
  - apply lookup_replicate_2. lia.
  - apply lookup_replicate_2. lia.
Qed.

(** the shapes of the arrays after the loops *)
Lemma fill_shapes :
  exists s, fill totarea start_year = Ok s /\
    length (co2flx s) = Z.to_nat nmonth /\
    (forall sl, In sl (co2flx s) ->
       length sl = Z.to_nat nlat /\
       forall row, In row sl -> length row = Z.to_nat nlon).
Proof.
  destruct fill_filled as (s & Hs & r0 & r1 & _ & _ & _ & _ & _ & Lc & _ & Hv).
  exists s. split; [exact Hs|]. split; [exact Lc|].
  intros sl Hsl. apply list_elem_of_In, list_elem_of_lookup in Hsl as [k Hk].
  destruct (Hv k) as (_ & _ & _ & _ & Hr).
  { apply lookup_lt_Some in Hk. lia. }
  rewrite Hk in Hr. apply (inj Some) in Hr. subst sl.
  split; [apply length_replicate|].
  intros row Hrow. apply list_elem_of_In, elem_of_replicate in Hrow as [-> _].
  apply length_replicate.
Qed.
End Loop.

(** ** Checking a property at every time step by evaluation *)

Lemma map_eq_pointwise {A B : Type} (f g : A -> B) (l : list A) :
  map f l = map g l -> forall x, In x l -> f x = g x.
Proof.
  induction l as [|a l IH]; intros Heq x Hx; [destruct Hx|].
  cbn [map] in Heq. injection Heq as Ha Hl.
  destruct Hx as [<-|Hx]; [exact Ha|exact (IH Hl x Hx)].
Qed.

Definition months : list Z := seqZ 0 nmonth.

Lemma in_months (k : Z) : 0 <= k < nmonth -> In k months.
Proof.
  intros Hk. apply list_elem_of_In, elem_of_seqZ. lia.
Qed.

Lemma months_pointwise {B : Type} (f g : Z -> B) :
  map f months = map g months -> forall k, 0 <= k < nmonth -> f k = g k.
Proof.
  intros Heq k Hk. exact (map_eq_pointwise f g months Heq k (in_months k Hk)).
Qed.

Lemma months_forallb (p : Z -> bool) :
  forallb p months = true -> forall k, 0 <= k < nmonth -> p k = true.
Proof.
  intros Hall k Hk. rewrite forallb_forall in Hall. apply Hall, in_months, Hk.
Qed.

(** ** The calendar arithmetic *)

(** the script's setting *)
Definition start_year : Z := 1.

(** days in the first [n] months of the 365-day year *)
Definition cum_days (n : Z) : Z := fold_right Z.add 0 (take (Z.to_nat n) dayim).

Lemma bounds_no_wrap (k : Z) :
  0 <= k < nmonth ->
  int64 (int64 (365 * (year_of k - 1) + nthZ days (month_of k - 1)) - 1)
  = 365 * (year_of k - 1) + cum_days (month_of k - 1)
  /\ int64 (365 * (year_of k - 1) + nthZ daye (month_of k - 1))
     = 365 * (year_of k - 1) + cum_days (month_of k).
Proof.
  intros Hk. split.
  - revert k Hk. apply months_pointwise. vm_compute. reflexivity.
  - revert k Hk. apply months_pointwise. vm_compute. reflexivity.
Qed.

Lemma month_length (k : Z) :
  0 <= k < nmonth ->
  cum_days (month_of k) - cum_days (month_of k - 1) = nthZ dayim (month_of k - 1).
Proof.
  revert k. apply months_pointwise. vm_compute. reflexivity.
Qed.

Lemma date_no_wrap (k : Z) :
  0 <= k < nmonth ->
  int32 ((1850 + (year_of k - 1)) * 10000 + nthZ date_mint (month_of k - 1))
  = (1850 + (year_of k - 1)) * 10000 + nthZ date_mint (month_of k - 1).
Proof.
  revert k. apply months_pointwise. vm_compute. reflexivity.
Qed.

(** ** binary64 facts, checked on all 3000 time steps *)

Lemma bounds_difference (k : Z) :
  0 <= k < nmonth ->
  PrimFloat.sub (stored_tb1 (year_of k) (month_of k))
                (stored_tb0 (year_of k) (month_of k))
  = Z2F (nthZ dayim (month_of k - 1)).
Proof.
  revert k. apply months_pointwise. vm_compute. reflexivity.
Qed.

Lemma midpoint_sum (k : Z) :
  0 <= k < nmonth ->
  stored_time (F := float) (year_of k) (month_of k)
  = PrimFloat.div (PrimFloat.add (stored_tb0 (year_of k) (month_of k))
                                 (stored_tb1 (year_of k) (month_of k)))
                  2%float.
Proof.
  revert k. apply months_pointwise. vm_compute. reflexivity.
Qed.

Lemma bounds_ordered (k : Z) :
  0 <= k < nmonth ->
  PrimFloat.ltb (stored_tb0 (year_of k) (month_of k))
                (stored_tb1 (year_of k) (month_of k)) = true.
Proof.
  revert k. apply months_forallb. vm_compute. reflexivity.
Qed.

Lemma bounds_contiguous (k : Z) :
  0 <= k < nmonth ->
  stored_tb1 (F := float) (year_of k) (month_of k)
  = stored_tb0 (year_of (k + 1)) (month_of (k + 1)).
Proof.
  revert k. apply months_pointwise. vm_compute. reflexivity.
Qed.

(** every element is below all later ones *)
Fixpoint increasing (l : list float) : bool :=
  match l with
  | [] => true
  | x :: l' => forallb (PrimFloat.ltb x) l' && increasing l'
  end.

Lemma increasing_lookup (l : list float) :
  increasing l = true ->
  forall (i j : nat) (x y : float),
    (i < j)%nat -> l !! i = Some x -> l !! j = Some y ->
    PrimFloat.ltb x y = true.
Proof.
  induction l as [|a l IH]; intros Hinc i j x y Hij Hi Hj.
  - discriminate Hi.
  - cbn [increasing] in Hinc. apply andb_true_iff in Hinc as [Hall Hrest].
    destruct j as [|j]; [lia|]. cbn in Hj.
    destruct i as [|i].
    + cbn in Hi. injection Hi as <-.
      rewrite forallb_forall in Hall. apply Hall.
      apply list_elem_of_In, list_elem_of_lookup. exists j. exact Hj.
    + cbn in Hi. apply (IH Hrest i j); [lia|exact Hi|exact Hj].
Qed.

Definition midpoints : list float :=
  map (fun k => stored_time (year_of k) (month_of k)) months.

Lemma midpoints_increasing : increasing midpoints = true.
Proof. vm_compute. reflexivity. Qed.

Lemma midpoints_lookup (k : Z) :
  0 <= k < nmonth ->
  midpoints !! Z.to_nat k = Some (stored_time (year_of k) (month_of k)).
Proof.
  intros Hk. unfold midpoints, months.
  rewrite list_lookup_fmap, lookup_seqZ_lt by lia.
  cbn [fmap option_fmap option_map]. do 3 f_equal; lia.
Qed.

Lemma midpoint_order (i j : Z) :
  0 <= i -> i < j -> j < nmonth ->
  PrimFloat.ltb (stored_time (year_of i) (month_of i))
                (stored_time (year_of j) (month_of j)) = true.
Proof.
  intros Hi Hij Hj.
  apply (increasing_lookup midpoints midpoints_increasing
           (Z.to_nat i) (Z.to_nat j)); [lia| |].
  - apply midpoints_lookup. lia.
  - apply midpoints_lookup. lia.
Qed.

Lemma nmonth_val : nmonth = 3000.
Proof. reflexivity. Qed.

Lemma index_in_range (iy im : Z) :
  1 <= iy <= 250 -> 1 <= im <= 12 -> 0 <= (iy - 1) * 12 + im - 1 < nmonth.
Proof. rewrite nmonth_val. lia. Qed.

Lemma date_mint_bounds (im : Z) :
  1 <= im <= 12 -> 0 <= nthZ date_mint (im - 1) < 10000.
Proof.
  intros Him.
  assert (Hin : In im (seqZ 1 12)) by (apply list_elem_of_In, elem_of_seqZ; lia).
  assert (Hall : forallb (fun m => (0 <=? nthZ date_mint (m - 1))
                                   && (nthZ date_mint (m - 1) <? 10000))
                         (seqZ 1 12) = true) by (vm_compute; reflexivity).
  rewrite forallb_forall in Hall. specialize (Hall im Hin).
  apply andb_true_iff in Hall as [H1 H2]. lia.
Qed.

(** ** The time axis *)

(** C3: at idx = (iy-1)*12 + im - 1 the lower time bound is 365*(iy-1) plus
    the days of the months before im, the upper bound is 365*(iy-1) plus the
    days through month im, and their (binary64) difference is the number of
    days of month im; the twelve months add up to 365 days. *)
Theorem time_bounds_calendar (totarea : float) (iy im : Z) :
  1 <= iy <= 250 -> 1 <= im <= 12 ->
  time_bnds_at totarea start_year 0 ((iy - 1) * 12 + im - 1)
  = Ok (Z2F (365 * (iy - 1) + cum_days (im - 1)))
  /\ time_bnds_at totarea start_year 1 ((iy - 1) * 12 + im - 1)
     = Ok (Z2F (365 * (iy - 1) + cum_days im))
  /\ PrimFloat.sub (Z2F (365 * (iy - 1) + cum_days im))
                   (Z2F (365 * (iy - 1) + cum_days (im - 1)))
     = Z2F (nthZ dayim (im - 1))
  /\ cum_days im - cum_days (im - 1) = nthZ dayim (im - 1)
  /\ cum_days 12 = 365.
Proof.
  intros Hiy Him.
  pose proof (index_in_range iy im Hiy Him) as Hidx.
  destruct (year_month_of iy im Him) as [Hy Hm].
  destruct (bounds_no_wrap _ Hidx) as [Hb0 Hb1].
  pose proof (bounds_difference _ Hidx) as Hd.
  pose proof (month_length _ Hidx) as Hl.
  unfold stored_tb0, stored_tb1 in Hd. cbn [of_int binary64] in Hd.
  rewrite Hb0, Hb1 in Hd. rewrite Hy, Hm in *.
  rewrite time_bnds_at_0, time_bnds_at_1 by exact Hidx.
  rewrite Hy, Hm. unfold stored_tb0, stored_tb1. cbn [of_int binary64].
  rewrite Hb0, Hb1.
  repeat split; try reflexivity; assumption.
Qed.

Lemma time_bounds_calendar_witness :
  1 <= 3 <= 250 /\ 1 <= 2 <= 12
  /\ time_bnds_at 5.1e14%float start_year 0 ((3 - 1) * 12 + 2 - 1)
     = Ok (Z2F (365 * (3 - 1) + cum_days (2 - 1)))
  /\ time_bnds_at 5.1e14%float start_year 1 ((3 - 1) * 12 + 2 - 1)
     = Ok (Z2F (365 * (3 - 1) + cum_days 2)).
Proof.
  assert (H1 : 1 <= 3 <= 250) by lia.
  assert (H2 : 1 <= 2 <= 12) by lia.
  destruct (time_bounds_calendar 5.1e14%float 3 2 H1 H2) as (Ha & Hb & _).
  exact (conj H1 (conj H2 (conj Ha Hb))).
Defined.

(** C4: the packed date at idx = (iy-1)*12 + im - 1 is
    (1850 + iy - 1) * 10000 + date_mint[im-1]: its year part runs from 1850
    to 2099 and its MMDD part is the mid-month code of month im. *)
Theorem date_code (totarea : float) (iy im : Z) :
  1 <= iy <= 250 -> 1 <= im <= 12 ->
  date_at totarea start_year ((iy - 1) * 12 + im - 1)
  = Ok ((1850 + iy - 1) * 10000 + nthZ date_mint (im - 1))
  /\ 1850 <= 1850 + iy - 1 <= 2099
  /\ ((1850 + iy - 1) * 10000 + nthZ date_mint (im - 1)) / 10000 = 1850 + iy - 1
  /\ ((1850 + iy - 1) * 10000 + nthZ date_mint (im - 1)) mod 10000
     = nthZ date_mint (im - 1).
Proof.
  intros Hiy Him.
  pose proof (index_in_range iy im Hiy Him) as Hidx.
  destruct (year_month_of iy im Him) as [Hy Hm].
  pose proof (date_no_wrap _ Hidx) as Hw. rewrite Hy, Hm in Hw.
  pose proof (date_mint_bounds im Him) as Hb.
  rewrite date_at_stored by exact Hidx. rewrite Hy, Hm.
  unfold stored_date. rewrite Hw.
  split; [f_equal; lia|]. split; [lia|].
  split; Z.div_mod_to_equations; lia.
Qed.

Lemma date_code_witness :
  1 <= 3 <= 250 /\ 1 <= 2 <= 12
  /\ date_at 5.1e14%float start_year ((3 - 1) * 12 + 2 - 1)
     = Ok ((1850 + 3 - 1) * 10000 + nthZ date_mint (2 - 1)).
Proof.
  assert (H1 : 1 <= 3 <= 250) by lia.
  assert (H2 : 1 <= 2 <= 12) by lia.
  destruct (date_code 5.1e14%float 3 2 H1 H2) as (Ha & _).
  exact (conj H1 (conj H2 Ha)).
Defined.

(** C6: at every time step the midpoint time is half the (binary64) sum of
    the two time bounds of that step. *)
Theorem midpoint_time (totarea : float) (idx : Z) :
  0 <= idx < 3000 ->
  exists b0 b1 : float,
    time_bnds_at totarea start_year 0 idx = Ok b0
    /\ time_bnds_at totarea start_year 1 idx = Ok b1
    /\ time_at totarea start_year idx
       = Ok (PrimFloat.div (PrimFloat.add b0 b1) 2%float).
Proof.
  intros Hidx. rewrite <- nmonth_val in Hidx.
  exists (stored_tb0 (year_of idx) (month_of idx)),
         (stored_tb1 (year_of idx) (month_of idx)).
  rewrite time_bnds_at_0, time_bnds_at_1, time_at_stored by exact Hidx.
  rewrite midpoint_sum by exact Hidx.
  repeat split.
Qed.

Lemma midpoint_time_witness :
  0 <= 25 < 3000
  /\ exists b0 b1 : float,
      time_bnds_at 5.1e14%float start_year 0 25 = Ok b0
      /\ time_bnds_at 5.1e14%float start_year 1 25 = Ok b1
      /\ time_at 5.1e14%float start_year 25
         = Ok (PrimFloat.div (PrimFloat.add b0 b1) 2%float).
Proof.
  assert (H1 : 0 <= 25 < 3000) by lia.
  exact (conj H1 (midpoint_time 5.1e14%float 25 H1)).
Defined.

(** C8: the monthly bounds are ordered and gap-free, and the midpoint times
    increase strictly: lower bound < upper bound at every step, the upper
    bound of a step is the lower bound of the next, and an earlier step's
    midpoint is below every later one's. *)
Theorem time_bounds_partition (totarea : float) :
  (forall idx, 0 <= idx < 3000 ->
     exists b0 b1 : float,
       time_bnds_at totarea start_year 0 idx = Ok b0
       /\ time_bnds_at totarea start_year 1 idx = Ok b1
       /\ PrimFloat.ltb b0 b1 = true)
  /\ (forall idx, 0 <= idx < 2999 ->
        exists b : float,
          time_bnds_at totarea start_year 1 idx = Ok b
          /\ time_bnds_at totarea start_year 0 (idx + 1) = Ok b)
  /\ (forall i j, 0 <= i -> i < j -> j < 3000 ->
        exists t t' : float,
          time_at totarea start_year i = Ok t
          /\ time_at totarea start_year j = Ok t'
          /\ PrimFloat.ltb t t' = true).
Proof.
  rewrite <- nmonth_val. split; [|split].
  - intros idx Hidx.
    exists (stored_tb0 (year_of idx) (month_of idx)),
           (stored_tb1 (year_of idx) (month_of idx)).
    rewrite time_bnds_at_0, time_bnds_at_1 by exact Hidx.
    split; [reflexivity|]. split; [reflexivity|].
    apply bounds_ordered, Hidx.
  - intros idx Hidx.
    exists (stored_tb1 (year_of idx) (month_of idx)).
    rewrite time_bnds_at_0, time_bnds_at_1 by (rewrite nmonth_val; lia).
    split; [reflexivity|].
    rewrite bounds_contiguous by (rewrite nmonth_val; lia). reflexivity.
  - intros i j Hi Hij Hj.
    exists (stored_time (year_of i) (month_of i)),
           (stored_time (year_of j) (month_of j)).
    rewrite !time_at_stored by lia.
    split; [reflexivity|]. split; [reflexivity|].
    apply midpoint_order; assumption.
Qed.

Lemma time_bounds_partition_witness :
  (exists b0 b1 : float,
     time_bnds_at 5.1e14%float start_year 0 25 = Ok b0
     /\ time_bnds_at 5.1e14%float start_year 1 25 = Ok b1
     /\ PrimFloat.ltb b0 b1 = true)
  /\ (exists b : float,
        time_bnds_at 5.1e14%float start_year 1 25 = Ok b
        /\ time_bnds_at 5.1e14%float start_year 0 (25 + 1) = Ok b)
  /\ (exists t t' : float,
        time_at 5.1e14%float start_year 25 = Ok t
        /\ time_at 5.1e14%float start_year 2999 = Ok t'
        /\ PrimFloat.ltb t t' = true).
Proof.
  destruct (time_bounds_partition 5.1e14%float) as (Ha & Hb & Hc).
  split; [apply Ha; lia|]. split; [apply Hb; lia|]. apply Hc; lia.
Defined.

(** ** The flux field *)

Set Warnings "-inexact-float".

(** the literals of the unit conversion, as binary64 values *)
Lemma E_binary64 : E (F := float) = (1000 * 0.02 / 1.32)%float.
Proof. vm_compute. reflexivity. Qed.

Lemma budget_binary64 :
  mul (mul (mul (lit 1) E) (lit 1e12)) (lit 3.664)
  = (E * 1e12 * 3.664)%float.
Proof. vm_compute. reflexivity. Qed.

Lemma seconds_binary64 : lit (F := float) 86400 = 86400%float.
Proof. vm_compute. reflexivity. Qed.

Lemma twelve_binary64 : of_int (F := float) 12 = 12%float.
Proof. vm_compute. reflexivity. Qed.

Lemma zero_binary64 : lit (F := float) 0 = 0%float.
Proof. vm_compute. reflexivity. Qed.

Lemma in_configured_range (sy iy : Z) :
  sy <= iy < sy + 250 -> (sy <=? iy) && (iy <? sy + 250) = true.
Proof.
  intros Hr. apply andb_true_iff. split; [apply Z.leb_le|apply Z.ltb_lt]; lia.
Qed.

Lemma out_of_configured_range (sy iy : Z) :
  ~ (sy <= iy < sy + 250) -> (sy <=? iy) && (iy <? sy + 250) = false.
Proof.
  intros Hr. apply andb_false_iff.
  destruct (Z.leb_spec sy iy); [right|left; reflexivity].
  apply Z.ltb_ge. lia.
Qed.

(** the value one iteration stores, for a year inside the configured range *)
Lemma stored_flux_binary64 (totarea : float) (sy iy im : Z) :
  1 <= iy <= 250 -> 1 <= im <= 12 -> sy <= iy < sy + 250 ->
  stored_flux totarea sy iy im
  = (E * 1e12 * 3.664 / (Z2F (nthZ dayim (im - 1)) * 86400) / totarea / 12)%float.
Proof.
  intros Hiy Him Hsy.
  pose proof (bounds_difference _ (index_in_range iy im Hiy Him)) as Hd.
  destruct (year_month_of iy im Him) as [Hy Hm]. rewrite Hy, Hm in Hd.
  unfold stored_flux. rewrite (in_configured_range sy iy Hsy).
  rewrite budget_binary64, seconds_binary64, twelve_binary64.
  cbn [sub mul div binary64]. rewrite Hd. reflexivity.
Qed.

(** C1: every cell of co2flx[idx], idx = (iy-1)*12 + im - 1, holds
    E * 1e12 * 3.664 / (dayim[im-1] * 86400) / totarea / 12 with
    E = 1000 * 0.02 / 1.32, evaluated in binary64 in this order. *)
Theorem flux_value (totarea : float) (iy im la lo : Z) :
  1 <= iy <= 250 -> 1 <= im <= 12 -> 0 <= la < 96 -> 0 <= lo < 144 ->
  E (F := float) = (1000 * 0.02 / 1.32)%float
  /\ co2flx_at totarea start_year ((iy - 1) * 12 + im - 1) la lo
     = Ok (E * 1e12 * 3.664 / (Z2F (nthZ dayim (im - 1)) * 86400)
           / totarea / 12)%float.
Proof.
  intros Hiy Him Hla Hlo. split; [exact E_binary64|].
  destruct (year_month_of iy im Him) as [Hy Hm].
  rewrite co2flx_at_stored
    by (try apply index_in_range; unfold nlat, nlon; assumption || lia).
  rewrite Hy, Hm.
  apply f_equal, stored_flux_binary64; try assumption.
  unfold start_year. lia.
Qed.

Lemma flux_value_witness :
  1 <= 3 <= 250 /\ 1 <= 2 <= 12 /\ 0 <= 5 < 96 /\ 0 <= 7 < 144
  /\ co2flx_at 5.1e14%float start_year ((3 - 1) * 12 + 2 - 1) 5 7
     = Ok (E * 1e12 * 3.664 / (Z2F (nthZ dayim (2 - 1)) * 86400)
           / 5.1e14 / 12)%float.
Proof.
  assert (H1 : 1 <= 3 <= 250) by lia.
  assert (H2 : 1 <= 2 <= 12) by lia.
  assert (H3 : 0 <= 5 < 96) by lia.
  assert (H4 : 0 <= 7 < 144) by lia.
  destruct (flux_value 5.1e14%float 3 2 5 7 H1 H2 H3 H4) as [_ Hv].
  exact (conj H1 (conj H2 (conj H3 (conj H4 Hv)))).
Defined.

(** C2: for any setting sy of start_year, every time step idx of co2flx
    holds one value at all grid cells, and that value is zero when the year
    of the step, idx / 12 + 1, lies outside [sy, sy + 250). *)
Theorem flux_uniform (totarea : float) (sy idx : Z) :
  0 <= idx < 3000 ->
  exists v : float,
    (forall la lo, 0 <= la < 96 -> 0 <= lo < 144 ->
       co2flx_at totarea sy idx la lo = Ok v)
    /\ (~ (sy <= idx / 12 + 1 < sy + 250) -> v = 0%float).
Proof.
  intros Hidx. rewrite <- nmonth_val in Hidx.
  exists (stored_flux totarea sy (year_of idx) (month_of idx)). split.
  - intros la lo Hla Hlo.
    apply co2flx_at_stored; unfold nlat, nlon; assumption || lia.
  - intros Hout. unfold stored_flux.
    rewrite (out_of_configured_range sy (year_of idx) Hout).
    exact zero_binary64.
Qed.

Lemma flux_uniform_witness :
  0 <= 25 < 3000
  /\ exists v : float,
      (forall la lo, 0 <= la < 96 -> 0 <= lo < 144 ->
         co2flx_at 5.1e14%float 11 25 la lo = Ok v)
      /\ (~ (11 <= 25 / 12 + 1 < 11 + 250) -> v = 0%float).
Proof.
  assert (H1 : 0 <= 25 < 3000) by lia.
  exact (conj H1 (flux_uniform 5.1e14%float 11 25 H1)).
Defined.

(** C10: the flux of month im is the same in every year: the steps
    (iy1-1)*12 + im - 1 and (iy2-1)*12 + im - 1 hold the same value at every
    grid cell. *)
Theorem flux_same_every_year (totarea : float) (iy1 iy2 im la lo : Z) :
  1 <= iy1 <= 250 -> 1 <= iy2 <= 250 -> 1 <= im <= 12 ->
  0 <= la < 96 -> 0 <= lo < 144 ->
  exists v : float,
    co2flx_at totarea start_year ((iy1 - 1) * 12 + im - 1) la lo = Ok v
    /\ co2flx_at totarea start_year ((iy2 - 1) * 12 + im - 1) la lo = Ok v.
Proof.
  intros H1 H2 Him Hla Hlo.
  destruct (year_month_of iy1 im Him) as [Hy1 Hm1].
  destruct (year_month_of iy2 im Him) as [Hy2 Hm2].
  eexists.
  rewrite !co2flx_at_stored
    by (try apply index_in_range; unfold nlat, nlon; assumption || lia).
  rewrite Hy1, Hm1, Hy2, Hm2.
  rewrite !stored_flux_binary64 by (try assumption; unfold start_year; lia).
  split; reflexivity.
Qed.

Lemma flux_same_every_year_witness :
  1 <= 3 <= 250 /\ 1 <= 200 <= 250 /\ 1 <= 2 <= 12
  /\ 0 <= 5 < 96 /\ 0 <= 7 < 144
  /\ exists v : float,
      co2flx_at 5.1e14%float start_year ((3 - 1) * 12 + 2 - 1) 5 7 = Ok v
      /\ co2flx_at 5.1e14%float start_year ((200 - 1) * 12 + 2 - 1) 5 7 = Ok v.
Proof.
  assert (H1 : 1 <= 3 <= 250) by lia.
  assert (H2 : 1 <= 200 <= 250) by lia.
  assert (H3 : 1 <= 2 <= 12) by lia.
  assert (H4 : 0 <= 5 < 96) by lia.
  assert (H5 : 0 <= 7 < 144) by lia.
  exact (conj H1 (conj H2 (conj H3 (conj H4 (conj H5
           (flux_same_every_year 5.1e14%float 3 200 2 5 7 H1 H2 H3 H4 H5)))))).
Defined.

(** ** The annual budget *)

Section Budget.
Context {F : Type} `{Arith F}.








End Budget.

(** the rational number a finite binary64 value stands for *)
Definition F2Q (x : float) : Q :=
  match Prim2SF x with
  | S754_finite s m e =>
      let v := (inject_Z (Zpos m) * Qpower 2 e)%Q in
      if s then Qopp v else v
  | _ => 0%Q
  end.









(** ** The script around the loops: files, template and output *)

(** An xarray variable on (time, lat, lon): its declared shape and values. *)
Record DataVar (F : Type) : Type := mkDataVar {
  v_shape : list Z;
  v_values : list (list (list F))
}.
Arguments mkDataVar {F}.
Arguments v_shape {F}.
Arguments v_values {F}.

Record Dataset (F : Type) : Type := mkDataset {
  CO2_flux : option (DataVar F);
  attrs : gmap string string
}.
Arguments mkDataset {F}.
Arguments CO2_flux {F}.
Arguments attrs {F}.

(** the grid-area file: its variable 'areacella', when it has one *)
Record AreaFile (F : Type) : Type := mkAreaFile {
  areacella : option (list (list F))
}.
Arguments mkAreaFile {F}.
Arguments areacella {F}.

(** What the file system answers: the two opens and the final write. *)
Record World (F : Type) : Type := mkWorld {
  open_dataset : result (AreaFile F);
  open_mfdataset : result (Dataset F);
  to_netcdf : Dataset F -> result unit
}.
Arguments mkWorld {F}.
Arguments open_dataset {F}.
Arguments open_mfdataset {F}.
Arguments to_netcdf {F}.

Inductive event (F : Type) : Type :=
| EvOpenArea
| EvOpenTemplate
| EvWrite (ds : Dataset F).
Arguments EvOpenArea {F}.
Arguments EvOpenTemplate {F}.
Arguments EvWrite {F} ds.

(** a computation logs its file operations and may raise *)
Definition prog (F A : Type) : Type := list (event F) -> list (event F) * result A.

Definition pbind {F A B : Type} (m : prog F A) (k : A -> prog F B) : prog F B :=
  fun tr =>
    match m tr with
    | (tr', Ok a) => k a tr'
    | (tr', Raise e) => (tr', Raise e)
    end.

Definition lift {F A : Type} (r : result A) : prog F A := fun tr => (tr, r).

Definition io {F A : Type} (ev : event F) (r : result A) : prog F A :=
  fun tr => (tr ++ [ev], r).

Notation "'do' x '<-' m ';' k" := (pbind m (fun x => k))
  (at level 10, x name, m at level 100, k at level 200).

(** dataset['name'] *)
Definition getvar {A : Type} (v : option A) : result A :=
  match v with
  | Some a => Ok a
  | None => Raise KeyError
  end.

(** the shape of a 3-d numpy array *)
Definition shape3 {A : Type} (a : list (list (list A))) : list Z :=
  [Z.of_nat (length a); Z.of_nat (length (hd [] a));
   Z.of_nat (length (hd [] (hd [] a)))].

(** dataset.isel(time=slice(0, n)) *)
Definition isel_var {F : Type} (n : Z) (v : DataVar F) : DataVar F :=
  match v_shape v with
  | [] => v
  | t :: rest => mkDataVar (Z.min t n :: rest) (take (Z.to_nat n) (v_values v))
  end.

Definition isel_time {F : Type} (n : Z) (ds : Dataset F) : Dataset F :=
  mkDataset (isel_var n <$> CO2_flux ds) (attrs ds).

(** dataset['CO2_flux'].values = a: the replacement must have the shape of
    the variable *)
Definition set_values {F : Type} (ds : Dataset F) (a : list (list (list F)))
  : result (Dataset F) :=
  let* v := getvar (CO2_flux ds) in
  if decide (shape3 a = v_shape v)
  then Ok (mkDataset (Some (mkDataVar (v_shape v) a)) (attrs ds))
  else Raise ValueError.

Definition assign_attrs {F : Type} (k v : string) (ds : Dataset F) : Dataset F :=
  mkDataset (CO2_flux ds) (<[k := v]> (attrs ds)).

Section Main.
Context {F : Type} `{Arith F}.

(** the reduction behind [areavar.sum().values] *)
Variable xr_sum : list (list F) -> F.

Definition script (w : World F) : prog F unit :=
  do area <- io EvOpenArea (open_dataset w);
  do areavar <- lift (getvar (areacella area));
  do dataset <- io EvOpenTemplate (open_mfdataset w);
  do co2var <- lift (getvar (CO2_flux dataset));
  do s <- lift (fill (xr_sum areavar) start_year);
  let dataset := isel_time 3000 dataset in
  do dataset <- lift (set_values dataset (co2flx s));
  let dataset :=
    assign_attrs "data_title"
      "Annual Anthropogenic Emissions of CO2 based on TCRE prepared for TIPMIP"
      dataset in
  let dataset :=
    assign_attrs "data_creator" "F. Froeb (friederike.frob@uib.no)" dataset in
  let dataset := assign_attrs "creation_date" "2024-08-03" dataset in
  io (EvWrite dataset) (to_netcdf w dataset).

Definition run (w : World F) : list (event F) * result unit := script w [].
End Main.

Section MainFacts.
Context {F : Type} `{Arith F}.
Variable xr_sum : list (list F) -> F.

Lemma fill_shape3 (totarea : F) (sy : Z) :
  exists s, fill totarea sy = Ok s
            /\ shape3 (co2flx s) = [3000; 96; 144].
Proof.
  destruct (fill_shapes totarea sy) as (s & Hs & Hlen & Hsl).
  exists s. split; [exact Hs|].
  unfold shape3.
  destruct (co2flx s) as [|sl rest] eqn:Hc; [discriminate Hlen|].
  destruct (Hsl sl (or_introl eq_refl)) as [Hla Hrows].
  cbn [hd].
  destruct sl as [|row sl']; [discriminate Hla|].
  cbn [hd]. rewrite (Hrows row (or_introl eq_refl)), Hla, Hlen.
  reflexivity.
Qed.

(** the dataset handed to [to_netcdf] *)
Definition output_dataset (tmpl : Dataset F) (shape : list Z) (s : State F)
  : Dataset F :=
  assign_attrs "creation_date" "2024-08-03"
    (assign_attrs "data_creator" "F. Froeb (friederike.frob@uib.no)"
       (assign_attrs "data_title"
          "Annual Anthropogenic Emissions of CO2 based on TCRE prepared for TIPMIP"
          (mkDataset (Some (mkDataVar shape (co2flx s))) (attrs tmpl)))).

(** the run, step by step *)
Lemma run_open_dataset_fails (w : World F) (e : exn) :
  open_dataset w = Raise e -> run xr_sum w = ([EvOpenArea], Raise e).
Proof.
  intros H1. unfold run, script, pbind, io, lift. rewrite H1. reflexivity.
Qed.

Lemma run_no_areacella (w : World F) (area : AreaFile F) :
  open_dataset w = Ok area -> areacella area = None ->
  run xr_sum w = ([EvOpenArea], Raise KeyError).
Proof.
  intros H1 H2. unfold run, script, pbind, io, lift. rewrite H1, H2.
  reflexivity.
Qed.

Lemma run_open_mfdataset_fails (w : World F) (area : AreaFile F)
      (a : list (list F)) (e : exn) :
  open_dataset w = Ok area -> areacella area = Some a ->
  open_mfdataset w = Raise e ->
  run xr_sum w = ([EvOpenArea; EvOpenTemplate], Raise e).
Proof.
  intros H1 H2 H3. unfold run, script, pbind, io, lift.
  rewrite H1, H2, H3. reflexivity.
Qed.

Lemma run_no_CO2_flux (w : World F) (area : AreaFile F)
      (a : list (list F)) (tmpl : Dataset F) :
  open_dataset w = Ok area -> areacella area = Some a ->
  open_mfdataset w = Ok tmpl -> CO2_flux tmpl = None ->
  run xr_sum w = ([EvOpenArea; EvOpenTemplate], Raise KeyError).
Proof.
  intros H1 H2 H3 H4. unfold run, script, pbind, io, lift.
  rewrite H1, H2, H3, H4. reflexivity.
Qed.

Lemma run_after_fill (w : World F) (area : AreaFile F)
      (a : list (list F)) (tmpl : Dataset F) (var : DataVar F) (s : State F) :
  open_dataset w = Ok area -> areacella area = Some a ->
  open_mfdataset w = Ok tmpl -> CO2_flux tmpl = Some var ->
  fill (xr_sum a) start_year = Ok s ->
  run xr_sum w =
  if decide (shape3 (co2flx s) = v_shape (isel_var 3000 var))
  then ([EvOpenArea; EvOpenTemplate;
         EvWrite (output_dataset tmpl (v_shape (isel_var 3000 var)) s)],
        to_netcdf w (output_dataset tmpl (v_shape (isel_var 3000 var)) s))
  else ([EvOpenArea; EvOpenTemplate], Raise ValueError).
Proof.
  intros H1 H2 H3 H4 H5. unfold run, script, pbind, io, lift.
  rewrite H1, H2, H3, H4. cbn [getvar app]. rewrite H5.
  unfold set_values, isel_time. rewrite H4.
  cbn [CO2_flux fmap option_fmap option_map getvar bind attrs].
  destruct (decide (shape3 (co2flx s) = v_shape (isel_var 3000 var)));
    reflexivity.
Qed.
End MainFacts.

(** a world in which everything is in place: an area file, a template with
    3192 monthly steps on the 96 x 144 grid, and a disk that accepts the
    output *)
Definition sample_sum (a : list (list float)) : float := 5.1e14%float.

Definition sample_template : Dataset float :=
  mkDataset (Some (mkDataVar [3192; 96; 144] [])) ∅.

Definition sample_world : World float :=
  mkWorld (Ok (mkAreaFile (Some []))) (Ok sample_template) (fun _ => Ok tt).

Lemma sample_world_writes :
  exists ds : Dataset float, In (EvWrite ds) (fst (run sample_sum sample_world)).
Proof.
  destruct (fill_shape3 (sample_sum []) start_year) as (s & Hs & Hshape).
  exists (output_dataset sample_template [3000; 96; 144] s).
  rewrite (run_after_fill sample_sum sample_world (mkAreaFile (Some [])) []
             sample_template (mkDataVar [3192; 96; 144] []) s
             eq_refl eq_refl eq_refl eq_refl Hs).
  rewrite Hshape.
  change (v_shape (isel_var 3000 (mkDataVar [3192; 96; 144] [])))
    with [3000; 96; 144].
  destruct (decide ([3000; 96; 144] = [3000; 96; 144]))
    as [_|Hne]; [|destruct (Hne eq_refl)].
  cbn [fst In]. right. right. left. reflexivity.
Qed.

(** C7: the first step that fails ends the run with that step's exception:
    no later file operation is logged (in particular no write), no operation
    is logged twice, and when every earlier step succeeds the result of the
    run is whatever the single write returns. *)
Theorem failure_propagates (xr_sum : list (list float) -> float)
        (w : World float) :
  (forall e, open_dataset w = Raise e ->
     run xr_sum w = ([EvOpenArea], Raise e))
  /\ (forall area, open_dataset w = Ok area -> areacella area = None ->
        run xr_sum w = ([EvOpenArea], Raise KeyError))
  /\ (forall area a e,
        open_dataset w = Ok area -> areacella area = Some a ->
        open_mfdataset w = Raise e ->
        run xr_sum w = ([EvOpenArea; EvOpenTemplate], Raise e))
  /\ (forall area a tmpl,
        open_dataset w = Ok area -> areacella area = Some a ->
        open_mfdataset w = Ok tmpl -> CO2_flux tmpl = None ->
        run xr_sum w = ([EvOpenArea; EvOpenTemplate], Raise KeyError))
  /\ (forall area a tmpl var,
        open_dataset w = Ok area -> areacella area = Some a ->
        open_mfdataset w = Ok tmpl -> CO2_flux tmpl = Some var ->
        v_shape (isel_var 3000 var) <> [3000; 96; 144] ->
        run xr_sum w = ([EvOpenArea; EvOpenTemplate], Raise ValueError))
  /\ (forall area a tmpl var,
        open_dataset w = Ok area -> areacella area = Some a ->
        open_mfdataset w = Ok tmpl -> CO2_flux tmpl = Some var ->
        v_shape (isel_var 3000 var) = [3000; 96; 144] ->
        exists s : State float,
          fill (xr_sum a) start_year = Ok s
          /\ run xr_sum w
             = ([EvOpenArea; EvOpenTemplate;
                 EvWrite (output_dataset tmpl [3000; 96; 144] s)],
                to_netcdf w (output_dataset tmpl [3000; 96; 144] s))).
Proof.
  split; [exact (run_open_dataset_fails xr_sum w)|].
  split; [exact (run_no_areacella xr_sum w)|].
  split; [exact (run_open_mfdataset_fails xr_sum w)|].
  split; [exact (run_no_CO2_flux xr_sum w)|].
  split.
  - intros area a tmpl var H1 H2 H3 H4 Hne.
    destruct (fill_shape3 (xr_sum a) start_year) as (s & Hs & Hshape).
    rewrite (run_after_fill xr_sum w area a tmpl var s H1 H2 H3 H4 Hs).
    rewrite Hshape.
    destruct (decide ([3000; 96; 144] = v_shape (isel_var 3000 var)))
      as [Heq|_]; [|reflexivity].
    destruct (Hne (eq_sym Heq)).
  - intros area a tmpl var H1 H2 H3 H4 Heq.
    destruct (fill_shape3 (xr_sum a) start_year) as (s & Hs & Hshape).
    exists s. split; [exact Hs|].
    rewrite (run_after_fill xr_sum w area a tmpl var s H1 H2 H3 H4 Hs).
    rewrite Hshape, Heq.
    destruct (decide ([3000; 96; 144] = [3000; 96; 144]))
      as [_|Hne]; [reflexivity|destruct (Hne eq_refl)].
Qed.

(** a world without the grid-area file *)
Definition no_area_world : World float :=
  mkWorld (Raise FileNotFoundError) (Ok sample_template) (fun _ => Ok tt).

Lemma failure_propagates_witness :
  open_dataset no_area_world = Raise FileNotFoundError
  /\ run sample_sum no_area_world = ([EvOpenArea], Raise FileNotFoundError).
Proof.
  assert (H1 : open_dataset no_area_world = Raise FileNotFoundError)
    by reflexivity.
  exact (conj H1 (proj1 (failure_propagates sample_sum no_area_world)
                        FileNotFoundError H1)).
Defined.


(** * Further properties of the script *)

(** ** The loops never raise *)

(** The two nested loops (lines 39-55) complete for every totarea and every
    setting of start_year: no index, and in particular no index into Edata,
    leaves its array, and the arrays keep the shapes they were allocated
    with. *)
Theorem loops_complete (totarea : float) (sy : Z) :
  exists s : State float,
    fill totarea sy = Ok s
    /\ (exists r0 r1 : list float,
          time_bnds s = [r0; r1]
          /\ Z.of_nat (length r0) = 3000 /\ Z.of_nat (length r1) = 3000)
    /\ Z.of_nat (length (time s)) = 3000
    /\ Z.of_nat (length (date s)) = 3000
    /\ Z.of_nat (length (co2flx s)) = 3000
    /\ forall sl, In sl (co2flx s) ->
         Z.of_nat (length sl) = 96
         /\ forall row, In row sl -> Z.of_nat (length row) = 144.
Proof.
  destruct (fill_filled totarea sy)
    as (s & Hs & r0 & r1 & Htb & L0 & L1 & Lt & Ld & Lc & _ & Hv).
  exists s. split; [exact Hs|].
  split; [exists r0, r1; rewrite L0, L1; repeat split; exact Htb|].
  rewrite Lt, Ld, Lc. do 3 (split; [reflexivity|]).
  intros sl Hsl. apply list_elem_of_In, list_elem_of_lookup in Hsl as [k Hk].
  destruct (Hv k) as (_ & _ & _ & _ & Hr).
  { apply lookup_lt_Some in Hk. lia. }
  rewrite Hk in Hr. apply (inj Some) in Hr. subst sl.
  rewrite length_replicate. split; [reflexivity|].
  intros row Hrow. apply list_elem_of_In, elem_of_replicate in Hrow as [-> _].
  rewrite length_replicate. reflexivity.
Qed.

(** ** The flux for any setting of start_year *)

(** For every setting sy of start_year, cell (la, lo) of co2flx at step
    (iy-1)*12 + im - 1 holds the converted rate when sy <= iy < sy + 250 and
    zero otherwise: shifting start_year moves the window of non-zero years
    but never changes the rate inside it. *)
Theorem flux_any_start_year (totarea : float) (sy iy im la lo : Z) :
  1 <= iy <= 250 -> 1 <= im <= 12 -> 0 <= la < 96 -> 0 <= lo < 144 ->
  co2flx_at totarea sy ((iy - 1) * 12 + im - 1) la lo
  = Ok (if (sy <=? iy) && (iy <? sy + 250)
        then (E * 1e12 * 3.664 / (Z2F (nthZ dayim (im - 1)) * 86400)
              / totarea / 12)%float
        else 0%float).
Proof.
  intros Hiy Him Hla Hlo.
  destruct (year_month_of iy im Him) as [Hy Hm].
  rewrite co2flx_at_stored
    by (try apply index_in_range; unfold nlat, nlon; assumption || lia).
  rewrite Hy, Hm. f_equal.
  destruct ((sy <=? iy) && (iy <? sy + 250)) eqn:G.
  - apply andb_true_iff in G as [G1 G2].
    apply stored_flux_binary64; try assumption. lia.
  - unfold stored_flux. rewrite G. exact zero_binary64.
Qed.

Lemma flux_any_start_year_witness :
  1 <= 30 <= 250 /\ 1 <= 2 <= 12 /\ 0 <= 5 < 96 /\ 0 <= 7 < 144
  /\ co2flx_at 5.1e14%float 11 ((30 - 1) * 12 + 2 - 1) 5 7
     = Ok (if (11 <=? 30) && (30 <? 11 + 250)
           then (E * 1e12 * 3.664 / (Z2F (nthZ dayim (2 - 1)) * 86400)
                 / 5.1e14 / 12)%float
           else 0%float).
Proof.
  assert (H1 : 1 <= 30 <= 250) by lia.
  assert (H2 : 1 <= 2 <= 12) by lia.
  assert (H3 : 0 <= 5 < 96) by lia.
  assert (H4 : 0 <= 7 < 144) by lia.
  exact (conj H1 (conj H2 (conj H3 (conj H4
           (flux_any_start_year 5.1e14%float 11 30 2 5 7 H1 H2 H3 H4))))).
Defined.

(** ** The time axis carries no rounding error *)

Lemma bounds_exact (k : Z) :
  0 <= k < nmonth ->
  Qeq_bool (F2Q (stored_tb0 (year_of k) (month_of k)))
           (inject_Z (365 * (year_of k - 1) + cum_days (month_of k - 1)))
  && Qeq_bool (F2Q (stored_tb1 (year_of k) (month_of k)))
              (inject_Z (365 * (year_of k - 1) + cum_days (month_of k)))
  && Qeq_bool (F2Q (stored_time (year_of k) (month_of k)))
              ((F2Q (stored_tb0 (year_of k) (month_of k))
                + F2Q (stored_tb1 (year_of k) (month_of k))) / 2)
  && PrimFloat.ltb (stored_tb0 (year_of k) (month_of k))
                   (stored_time (year_of k) (month_of k))
  && PrimFloat.ltb (stored_time (year_of k) (month_of k))
                   (stored_tb1 (year_of k) (month_of k))
  = true.
Proof.
  revert k. apply months_forallb. vm_compute. reflexivity.
Qed.

(** At every step the two time bounds are the exact day counts and the
    midpoint is their exact mean (lines 42-44): the int-to-float conversion,
    the sum and the halving lose nothing, and the midpoint lies strictly
    between the bounds. *)
Theorem time_axis_exact (totarea : float) (idx : Z) :
  0 <= idx < 3000 ->
  exists b0 b1 t : float,
    time_bnds_at totarea start_year 0 idx = Ok b0
    /\ time_bnds_at totarea start_year 1 idx = Ok b1
    /\ time_at totarea start_year idx = Ok t
    /\ (F2Q b0 == inject_Z (365 * (idx / 12) + cum_days (idx mod 12)))%Q
    /\ (F2Q b1 == inject_Z (365 * (idx / 12) + cum_days (idx mod 12 + 1)))%Q
    /\ (F2Q t == (F2Q b0 + F2Q b1) / 2)%Q
    /\ PrimFloat.ltb b0 t = true /\ PrimFloat.ltb t b1 = true.
Proof.
  intros Hidx. rewrite <- nmonth_val in Hidx.
  exists (stored_tb0 (year_of idx) (month_of idx)),
         (stored_tb1 (year_of idx) (month_of idx)),
         (stored_time (year_of idx) (month_of idx)).
  rewrite time_bnds_at_0, time_bnds_at_1, time_at_stored by exact Hidx.
  do 3 (split; [reflexivity|]).
  pose proof (bounds_exact idx Hidx) as Hx.
  repeat (apply andb_true_iff in Hx as [Hx ?]).
  apply Qeq_bool_iff in Hx.
  repeat match goal with
         | Hq : Qeq_bool _ _ = true |- _ => apply Qeq_bool_iff in Hq
         end.
  unfold year_of, month_of in *.
  replace (365 * (idx / 12 + 1 - 1)) with (365 * (idx / 12)) in * by lia.
  replace (idx mod 12 + 1 - 1) with (idx mod 12) in * by lia.
  repeat split; assumption.
Qed.

Lemma time_axis_exact_witness :
  0 <= 25 < 3000
  /\ exists b0 b1 t : float,
      time_bnds_at 5.1e14%float start_year 0 25 = Ok b0
      /\ time_bnds_at 5.1e14%float start_year 1 25 = Ok b1
      /\ time_at 5.1e14%float start_year 25 = Ok t
      /\ (F2Q b0 == inject_Z (365 * (25 / 12) + cum_days (25 mod 12)))%Q
      /\ (F2Q b1 == inject_Z (365 * (25 / 12) + cum_days (25 mod 12 + 1)))%Q
      /\ (F2Q t == (F2Q b0 + F2Q b1) / 2)%Q
      /\ PrimFloat.ltb b0 t = true /\ PrimFloat.ltb t b1 = true.
Proof.
  assert (H1 : 0 <= 25 < 3000) by lia.
  exact (conj H1 (time_axis_exact 5.1e14%float 25 H1)).
Defined.

(** Every year of the axis is 365 days long (lines 42-43): January of year
    iy starts at day 365*(iy-1) and December ends at day 365*iy, so the axis
    runs from day 0 to day 91250 without leap days. *)
Theorem year_span (totarea : float) (iy : Z) :
  1 <= iy <= 250 ->
  time_bnds_at totarea start_year 0 ((iy - 1) * 12) = Ok (Z2F (365 * (iy - 1)))
  /\ time_bnds_at totarea start_year 1 ((iy - 1) * 12 + 11) = Ok (Z2F (365 * iy))
  /\ 0 <= 365 * (iy - 1) /\ 365 * iy <= 91250.
Proof.
  intros Hiy.
  assert (Hjan : 0 <= (iy - 1) * 12 < nmonth) by (rewrite nmonth_val; lia).
  assert (Hdec : 0 <= (iy - 1) * 12 + 11 < nmonth) by (rewrite nmonth_val; lia).
  assert (Hy1 : year_of ((iy - 1) * 12) = iy)
    by (unfold year_of; Z.div_mod_to_equations; lia).
  assert (Hm1 : month_of ((iy - 1) * 12) = 1)
    by (unfold month_of; Z.div_mod_to_equations; lia).
  assert (Hy12 : year_of ((iy - 1) * 12 + 11) = iy)
    by (unfold year_of; Z.div_mod_to_equations; lia).
  assert (Hm12 : month_of ((iy - 1) * 12 + 11) = 12)
    by (unfold month_of; Z.div_mod_to_equations; lia).
  destruct (bounds_no_wrap _ Hjan) as [Hb0 _].
  destruct (bounds_no_wrap _ Hdec) as [_ Hb1].
  rewrite Hy1, Hm1 in Hb0. rewrite Hy12, Hm12 in Hb1.
  change (cum_days (1 - 1)) with 0 in Hb0. change (cum_days 12) with 365 in Hb1.
  split; [|split; [|lia]].
  - pose proof (time_bnds_at_0 totarea start_year _ Hjan) as Ht.
    rewrite Hy1, Hm1 in Ht. unfold stored_tb0 in Ht.
    cbn [of_int binary64] in Ht. rewrite Hb0 in Ht.
    replace (365 * (iy - 1) + 0) with (365 * (iy - 1)) in Ht by lia.
    exact Ht.
  - pose proof (time_bnds_at_1 totarea start_year _ Hdec) as Ht.
    rewrite Hy12, Hm12 in Ht. unfold stored_tb1 in Ht.
    cbn [of_int binary64] in Ht. rewrite Hb1 in Ht.
    replace (365 * (iy - 1) + 365) with (365 * iy) in Ht by lia.
    exact Ht.
Qed.

Lemma year_span_witness :
  1 <= 250 <= 250
  /\ time_bnds_at 5.1e14%float start_year 0 ((250 - 1) * 12)
     = Ok (Z2F (365 * (250 - 1)))
  /\ time_bnds_at 5.1e14%float start_year 1 ((250 - 1) * 12 + 11)
     = Ok (Z2F (365 * 250)).
Proof.
  assert (H1 : 1 <= 250 <= 250) by lia.
  destruct (year_span 5.1e14%float 250 H1) as (Ha & Hb & _).
  exact (conj H1 (conj Ha Hb)).
Defined.

(** ** The packed date *)

Lemma date_decodes (k : Z) :
  0 <= k < nmonth ->
  (stored_date (year_of k) (month_of k) / 10000 =? 1850 + k / 12)
  && ((stored_date (year_of k) (month_of k) / 100) mod 100 =? k mod 12 + 1)
  && ((stored_date (year_of k) (month_of k) mod 100 =? 15)
      || (stored_date (year_of k) (month_of k) mod 100 =? 16))
  && ((stored_date (year_of k) (month_of k) / 10000 - 1850) * 12
      + (stored_date (year_of k) (month_of k) / 100) mod 100 - 1 =? k)
  = true.
Proof.
  revert k. apply months_forallb. vm_compute. reflexivity.
Qed.

(** The packed date of step idx (lines 38 and 45) reads back as year
    1850 + idx/12, month idx mod 12 + 1 and day 15 or 16, and the step index
    is recovered from the code: distinct steps never share a date. *)
Theorem date_round_trip (totarea : float) (idx : Z) :
  0 <= idx < 3000 ->
  exists d : Z,
    date_at totarea start_year idx = Ok d
    /\ d / 10000 = 1850 + idx / 12
    /\ (d / 100) mod 100 = idx mod 12 + 1
    /\ (d mod 100 = 15 \/ d mod 100 = 16)
    /\ (d / 10000 - 1850) * 12 + (d / 100) mod 100 - 1 = idx.
Proof.
  intros Hidx. rewrite <- nmonth_val in Hidx.
  exists (stored_date (year_of idx) (month_of idx)).
  split; [exact (date_at_stored totarea start_year idx Hidx)|].
  pose proof (date_decodes idx Hidx) as Hd.
  apply andb_true_iff in Hd as [Hd H4].
  apply andb_true_iff in Hd as [Hd H3].
  apply andb_true_iff in Hd as [H1 H2].
  apply Z.eqb_eq in H1, H2, H4.
  split; [exact H1|]. split; [exact H2|]. split; [|exact H4].
  apply orb_true_iff in H3 as [H3|H3]; apply Z.eqb_eq in H3; auto.
Qed.

Lemma date_round_trip_witness :
  0 <= 25 < 3000
  /\ exists d : Z,
      date_at 5.1e14%float start_year 25 = Ok d
      /\ d / 10000 = 1850 + 25 / 12
      /\ (d / 100) mod 100 = 25 mod 12 + 1
      /\ (d mod 100 = 15 \/ d mod 100 = 16)
      /\ (d / 10000 - 1850) * 12 + (d / 100) mod 100 - 1 = 25.
Proof.
  assert (H1 : 0 <= 25 < 3000) by lia.
  exact (conj H1 (date_round_trip 5.1e14%float 25 H1)).
Defined.

(** every element is below all later ones *)
Fixpoint ascending (l : list Z) : bool :=
  match l with
  | [] => true
  | x :: l' => forallb (Z.ltb x) l' && ascending l'
  end.

Lemma ascending_lookup (l : list Z) :
  ascending l = true ->
  forall (i j : nat) (x y : Z),
    (i < j)%nat -> l !! i = Some x -> l !! j = Some y -> x < y.
Proof.
  induction l as [|a l IH]; intros Hasc i j x y Hij Hi Hj.
  - discriminate Hi.
  - cbn [ascending] in Hasc. apply andb_true_iff in Hasc as [Hall Hrest].
    destruct j as [|j]; [lia|]. cbn in Hj.
    destruct i as [|i].
    + cbn in Hi. injection Hi as <-.
      rewrite forallb_forall in Hall. apply Z.ltb_lt, Hall.
      apply list_elem_of_In, list_elem_of_lookup. exists j. exact Hj.
    + cbn in Hi. apply (IH Hrest i j); [lia|exact Hi|exact Hj].
Qed.

Definition date_codes : list Z :=
  map (fun k => stored_date (year_of k) (month_of k)) months.

Lemma date_codes_ascending : ascending date_codes = true.
Proof. vm_compute. reflexivity. Qed.

Lemma date_codes_lookup (k : Z) :
  0 <= k < nmonth ->
  date_codes !! Z.to_nat k = Some (stored_date (year_of k) (month_of k)).
Proof.
  intros Hk. unfold date_codes, months.
  rewrite list_lookup_fmap, lookup_seqZ_lt by lia.
  cbn [fmap option_fmap option_map]. do 3 f_equal; lia.
Qed.

(** The packed dates increase strictly along the time axis (line 45): an
    earlier step always carries a smaller YYYYMMDD code. *)
Theorem date_increasing (totarea : float) (i j : Z) :
  0 <= i -> i < j -> j < 3000 ->
  exists di dj : Z,
    date_at totarea start_year i = Ok di
    /\ date_at totarea start_year j = Ok dj
    /\ di < dj.
Proof.
  intros Hi Hij Hj. rewrite <- nmonth_val in Hj.
  exists (stored_date (year_of i) (month_of i)),
         (stored_date (year_of j) (month_of j)).
  split; [apply date_at_stored; lia|].
  split; [apply date_at_stored; lia|].
  apply (ascending_lookup date_codes date_codes_ascending
           (Z.to_nat i) (Z.to_nat j)); [lia| |].
  - apply date_codes_lookup. lia.
  - apply date_codes_lookup. lia.
Qed.

Lemma date_increasing_witness :
  0 <= 11 /\ 11 < 12 /\ 12 < 3000
  /\ exists di dj : Z,
      date_at 5.1e14%float start_year 11 = Ok di
      /\ date_at 5.1e14%float start_year 12 = Ok dj
      /\ di < dj.
Proof.
  assert (H1 : 0 <= 11) by lia.
  assert (H2 : 11 < 12) by lia.
  assert (H3 : 12 < 3000) by lia.
  exact (conj H1 (conj H2 (conj H3
           (date_increasing 5.1e14%float 11 12 H1 H2 H3)))).
Defined.

Lemma midpoint_day (k : Z) :
  0 <= k < nmonth ->
  (Qfloor (F2Q (stored_time (year_of k) (month_of k)))
   =? 365 * (k / 12) + cum_days (k mod 12)
      + (stored_date (year_of k) (month_of k) mod 100 - 1)) = true.
Proof.
  revert k. apply months_forallb. vm_compute. reflexivity.
Qed.

(** The day of month written into the packed date (the table of line 38) is
    the calendar day in which the computed midpoint time (line 44) falls:
    counting days from 1, it is the whole number of days between the start
    of the month and the midpoint, plus one. *)
Theorem date_day_is_midpoint_day (totarea : float) (idx : Z) :
  0 <= idx < 3000 ->
  exists (t : float) (d : Z),
    time_at totarea start_year idx = Ok t
    /\ date_at totarea start_year idx = Ok d
    /\ Qfloor (F2Q t) - (365 * (idx / 12) + cum_days (idx mod 12)) + 1
       = d mod 100.
Proof.
  intros Hidx. rewrite <- nmonth_val in Hidx.
  exists (stored_time (year_of idx) (month_of idx)),
         (stored_date (year_of idx) (month_of idx)).
  split; [exact (time_at_stored totarea start_year idx Hidx)|].
  split; [exact (date_at_stored totarea start_year idx Hidx)|].
  pose proof (midpoint_day idx Hidx) as Hm. apply Z.eqb_eq in Hm. lia.
Qed.

Lemma date_day_is_midpoint_day_witness :
  0 <= 25 < 3000
  /\ exists (t : float) (d : Z),
      time_at 5.1e14%float start_year 25 = Ok t
      /\ date_at 5.1e14%float start_year 25 = Ok d
      /\ Qfloor (F2Q t) - (365 * (25 / 12) + cum_days (25 mod 12)) + 1
         = d mod 100.
Proof.
  assert (H1 : 0 <= 25 < 3000) by lia.
  exact (conj H1 (date_day_is_midpoint_day 5.1e14%float 25 H1)).
Defined.

(** ** What reaches the output file *)

Section RunFacts.
Context {F : Type} `{Arith F}.
Variable xr_sum : list (list F) -> F.

Lemma getitem3_of_fill (totarea : F) (sy : Z) (s : State F) (idx la lo : Z) :
  fill totarea sy = Ok s ->
  getitem3 (co2flx s) idx la lo = co2flx_at totarea sy idx la lo.
Proof.
  intros Hs. unfold co2flx_at. rewrite Hs. reflexivity.
Qed.

Lemma run_shape_mismatch (w : World F) (area : AreaFile F)
      (a : list (list F)) (tmpl : Dataset F) (var : DataVar F) :
  open_dataset w = Ok area -> areacella area = Some a ->
  open_mfdataset w = Ok tmpl -> CO2_flux tmpl = Some var ->
  v_shape (isel_var 3000 var) <> [3000; 96; 144] ->
  run xr_sum w = ([EvOpenArea; EvOpenTemplate], Raise ValueError).
Proof.
  intros H1 H2 H3 H4 Hne.
  destruct (fill_shape3 (xr_sum a) start_year) as (s & Hs & Hshape).
  rewrite (run_after_fill xr_sum w area a tmpl var s H1 H2 H3 H4 Hs).
  rewrite Hshape.
  destruct (decide ([3000; 96; 144] = v_shape (isel_var 3000 var)))
    as [Heq|_]; [|reflexivity].
  destruct (Hne (eq_sym Heq)).
Qed.

Lemma run_shape_match (w : World F) (area : AreaFile F)
      (a : list (list F)) (tmpl : Dataset F) (var : DataVar F) (s : State F) :
  open_dataset w = Ok area -> areacella area = Some a ->
  open_mfdataset w = Ok tmpl -> CO2_flux tmpl = Some var ->
  fill (xr_sum a) start_year = Ok s ->
  v_shape (isel_var 3000 var) = [3000; 96; 144] ->
  run xr_sum w
  = ([EvOpenArea; EvOpenTemplate;
      EvWrite (output_dataset tmpl [3000; 96; 144] s)],
     to_netcdf w (output_dataset tmpl [3000; 96; 144] s)).
Proof.
  intros H1 H2 H3 H4 Hs Heq.
  destruct (fill_shape3 (xr_sum a) start_year) as (s' & Hs' & Hshape).
  rewrite Hs in Hs'. injection Hs' as <-.
  rewrite (run_after_fill xr_sum w area a tmpl var s H1 H2 H3 H4 Hs).
  rewrite Hshape, Heq.
  destruct (decide ([3000; 96; 144] = [3000; 96; 144]))
    as [_|Hne]; [reflexivity|destruct (Hne eq_refl)].
Qed.

(** every run is one of six: five ways to stop early, or the write *)
Lemma run_cases (w : World F) :
  (exists e, run xr_sum w = ([EvOpenArea], Raise e))
  \/ (exists e, run xr_sum w = ([EvOpenArea; EvOpenTemplate], Raise e))
  \/ (exists area a tmpl var s,
        open_dataset w = Ok area /\ areacella area = Some a
        /\ open_mfdataset w = Ok tmpl /\ CO2_flux tmpl = Some var
        /\ fill (xr_sum a) start_year = Ok s
        /\ v_shape (isel_var 3000 var) = [3000; 96; 144]
        /\ run xr_sum w
           = ([EvOpenArea; EvOpenTemplate;
               EvWrite (output_dataset tmpl [3000; 96; 144] s)],
              to_netcdf w (output_dataset tmpl [3000; 96; 144] s))).
Proof.
  destruct (open_dataset w) as [area|e] eqn:H1.
  2:{ left. exists e. exact (run_open_dataset_fails xr_sum w e H1). }
  destruct (areacella area) as [a|] eqn:H2.
  2:{ left. exists KeyError. exact (run_no_areacella xr_sum w area H1 H2). }
  destruct (open_mfdataset w) as [tmpl|e] eqn:H3.
  2:{ right. left. exists e.
      exact (run_open_mfdataset_fails xr_sum w area a e H1 H2 H3). }
  destruct (CO2_flux tmpl) as [var|] eqn:H4.
  2:{ right. left. exists KeyError.
      exact (run_no_CO2_flux xr_sum w area a tmpl H1 H2 H3 H4). }
  destruct (fill_shape3 (xr_sum a) start_year) as (s & Hs & _).
  destruct (decide (v_shape (isel_var 3000 var) = [3000; 96; 144]))
    as [Heq|Hne].
  - right. right. exists area, a, tmpl, var, s.
    do 6 (split; [first [assumption|exact eq_refl]|]).
    exact (run_shape_match w area a tmpl var s H1 H2 H3 H4 Hs Heq).
  - right. left. exists ValueError.
    exact (run_shape_mismatch w area a tmpl var H1 H2 H3 H4 Hne).
Qed.

Lemma written_dataset (w : World F) (ds : Dataset F) :
  In (EvWrite ds) (fst (run xr_sum w)) ->
  exists area a tmpl var s,
    open_dataset w = Ok area /\ areacella area = Some a
    /\ open_mfdataset w = Ok tmpl /\ CO2_flux tmpl = Some var
    /\ fill (xr_sum a) start_year = Ok s
    /\ v_shape (isel_var 3000 var) = [3000; 96; 144]
    /\ ds = output_dataset tmpl [3000; 96; 144] s.
Proof.
  intros Hin.
  destruct (run_cases w) as [[e Hr]|[[e Hr]|Hr]].
  - rewrite Hr in Hin. cbn [fst In] in Hin.
    destruct Hin as [Hin|[]]. discriminate Hin.
  - rewrite Hr in Hin. cbn [fst In] in Hin.
    destruct Hin as [Hin|[Hin|[]]]; discriminate Hin.
  - destruct Hr as (area & a & tmpl & var & s & H1 & H2 & H3 & H4 & Hs & Heq & Hr).
    rewrite Hr in Hin. cbn [fst In] in Hin.
    destruct Hin as [Hin|[Hin|[Hin|[]]]]; try discriminate Hin.
    injection Hin as <-.
    exists area, a, tmpl, var, s.
    do 6 (split; [assumption|]). reflexivity.
Qed.
End RunFacts.

(** End to end (lines 9-10, 51-53, 59-60, 80): whatever dataset the script
    hands to to_netcdf, its CO2_flux values are the computed rate with
    totarea the sum of the area file's areacella field; nothing of the
    template's own flux values survives. *)
Theorem written_values (xr_sum : list (list float) -> float)
        (w : World float) (ds : Dataset float) :
  In (EvWrite ds) (fst (run xr_sum w)) ->
  exists (area : AreaFile float) (a : list (list float)) (out : DataVar float),
    open_dataset w = Ok area /\ areacella area = Some a
    /\ CO2_flux ds = Some out
    /\ forall iy im la lo,
         1 <= iy <= 250 -> 1 <= im <= 12 -> 0 <= la < 96 -> 0 <= lo < 144 ->
         getitem3 (v_values out) ((iy - 1) * 12 + im - 1) la lo
         = Ok (E * 1e12 * 3.664 / (Z2F (nthZ dayim (im - 1)) * 86400)
               / xr_sum a / 12)%float.
Proof.
  intros Hin.
  destruct (written_dataset xr_sum w ds Hin)
    as (area & a & tmpl & var & s & H1 & H2 & H3 & H4 & Hs & Heq & ->).
  exists area, a, (mkDataVar [3000; 96; 144] (co2flx s)).
  split; [exact H1|]. split; [exact H2|]. split; [exact eq_refl|].
  intros iy im la lo Hiy Him Hla Hlo. cbn [v_values].
  rewrite (getitem3_of_fill (xr_sum a) start_year s _ la lo Hs).
  destruct (year_month_of iy im Him) as [Hy Hm].
  rewrite co2flx_at_stored
    by (try apply index_in_range; unfold nlat, nlon; assumption || lia).
  rewrite Hy, Hm.
  apply f_equal, stored_flux_binary64; try assumption.
  unfold start_year. lia.
Qed.

Lemma written_values_witness :
  exists ds : Dataset float,
    In (EvWrite ds) (fst (run sample_sum sample_world))
    /\ exists (area : AreaFile float) (a : list (list float))
              (out : DataVar float),
        open_dataset sample_world = Ok area /\ areacella area = Some a
        /\ CO2_flux ds = Some out
        /\ forall iy im la lo,
             1 <= iy <= 250 -> 1 <= im <= 12 -> 0 <= la < 96 -> 0 <= lo < 144 ->
             getitem3 (v_values out) ((iy - 1) * 12 + im - 1) la lo
             = Ok (E * 1e12 * 3.664 / (Z2F (nthZ dayim (im - 1)) * 86400)
                   / sample_sum a / 12)%float.
Proof.
  destruct sample_world_writes as [ds Hin].
  exists ds.
  exact (conj Hin (written_values sample_sum sample_world ds Hin)).
Defined.

(** The attributes of the written dataset (lines 63-65): the three
    descriptive attributes carry the script's texts, and every other
    attribute of the template is passed on unchanged. *)
Theorem written_attrs (xr_sum : list (list float) -> float)
        (w : World float) (ds : Dataset float) :
  In (EvWrite ds) (fst (run xr_sum w)) ->
  exists tmpl : Dataset float,
    open_mfdataset w = Ok tmpl
    /\ attrs ds !! "data_title"
       = Some "Annual Anthropogenic Emissions of CO2 based on TCRE prepared for TIPMIP"
    /\ attrs ds !! "data_creator" = Some "F. Froeb (friederike.frob@uib.no)"
    /\ attrs ds !! "creation_date" = Some "2024-08-03"
    /\ forall k : string,
         k <> "data_title" -> k <> "data_creator" -> k <> "creation_date" ->
         attrs ds !! k = attrs tmpl !! k.
Proof.
  intros Hin.
  destruct (written_dataset xr_sum w ds Hin)
    as (area & a & tmpl & var & s & H1 & H2 & H3 & H4 & Hs & Heq & ->).
  exists tmpl. split; [exact H3|].
  unfold output_dataset, assign_attrs. cbn [attrs CO2_flux].
  split.
  { rewrite lookup_insert_ne by discriminate.
    rewrite lookup_insert_ne by discriminate.
    apply lookup_insert_eq. }
  split.
  { rewrite lookup_insert_ne by discriminate. apply lookup_insert_eq. }
  split; [apply lookup_insert_eq|].
  intros k K1 K2 K3.
  rewrite !lookup_insert_ne by congruence. reflexivity.
Qed.

Lemma written_attrs_witness :
  exists ds : Dataset float,
    In (EvWrite ds) (fst (run sample_sum sample_world))
    /\ exists tmpl : Dataset float,
        open_mfdataset sample_world = Ok tmpl
        /\ attrs ds !! "data_title"
           = Some "Annual Anthropogenic Emissions of CO2 based on TCRE prepared for TIPMIP"
        /\ attrs ds !! "data_creator" = Some "F. Froeb (friederike.frob@uib.no)"
        /\ attrs ds !! "creation_date" = Some "2024-08-03"
        /\ forall k : string,
             k <> "data_title" -> k <> "data_creator" -> k <> "creation_date" ->
             attrs ds !! k = attrs tmpl !! k.
Proof.
  destruct sample_world_writes as [ds Hin].
  exists ds.
  exact (conj Hin (written_attrs sample_sum sample_world ds Hin)).
Defined.

(** The run ends without an exception exactly when the area file opens and
    has areacella, the template opens and its CO2_flux, cut to its first
    3000 steps, has shape (3000, 96, 144), and to_netcdf accepts the
    dataset (lines 9-15, 59-60, 80). *)
Theorem run_succeeds_iff (xr_sum : list (list float) -> float)
        (w : World float) :
  snd (run xr_sum w) = Ok tt
  <-> exists (area : AreaFile float) (a : list (list float))
             (tmpl : Dataset float) (var : DataVar float) (s : State float),
        open_dataset w = Ok area /\ areacella area = Some a
        /\ open_mfdataset w = Ok tmpl /\ CO2_flux tmpl = Some var
        /\ fill (xr_sum a) start_year = Ok s
        /\ v_shape (isel_var 3000 var) = [3000; 96; 144]
        /\ to_netcdf w (output_dataset tmpl [3000; 96; 144] s) = Ok tt.
Proof.
  split.
  - intros Hok.
    destruct (run_cases xr_sum w) as [[e Hr]|[[e Hr]|Hr]].
    + rewrite Hr in Hok. discriminate Hok.
    + rewrite Hr in Hok. discriminate Hok.
    + destruct Hr as (area & a & tmpl & var & s
                      & H1 & H2 & H3 & H4 & Hs & Heq & Hr).
      rewrite Hr in Hok. cbn [snd] in Hok.
      exists area, a, tmpl, var, s.
      do 6 (split; [assumption|]). exact Hok.
  - intros (area & a & tmpl & var & s & H1 & H2 & H3 & H4 & Hs & Heq & Hw).
    rewrite (run_shape_match xr_sum w area a tmpl var s H1 H2 H3 H4 Hs Heq).
    exact Hw.
Qed.

Lemma run_succeeds_iff_witness : snd (run sample_sum sample_world) = Ok tt.
Proof.
  destruct (fill_shape3 (sample_sum []) start_year) as (s & Hs & _).
  apply (proj2 (run_succeeds_iff sample_sum sample_world)).
  exists (mkAreaFile (Some [])), [], sample_template,
         (mkDataVar [3192; 96; 144] []), s.
  do 4 (split; [exact eq_refl|]). split; [exact Hs|].
  split; exact eq_refl.
Defined.

(** A template that is too short is not caught by the slicing of line 59,
    which silently returns fewer steps, but by the assignment of line 60:
    with fewer than 3000 time steps, or another grid than 96 x 144, the run
    raises ValueError after both files were opened and writes nothing. *)
Theorem short_template_rejected (xr_sum : list (list float) -> float)
        (w : World float) (area : AreaFile float) (a : list (list float))
        (tmpl : Dataset float) (var : DataVar float) (nt : Z) (grid : list Z) :
  open_dataset w = Ok area -> areacella area = Some a ->
  open_mfdataset w = Ok tmpl -> CO2_flux tmpl = Some var ->
  v_shape var = nt :: grid ->
  nt < 3000 \/ grid <> [96; 144] ->
  v_shape (isel_var 3000 var) = Z.min nt 3000 :: grid
  /\ run xr_sum w = ([EvOpenArea; EvOpenTemplate], Raise ValueError).
Proof.
  intros H1 H2 H3 H4 Hv Hbad.
  assert (Hsel : v_shape (isel_var 3000 var) = Z.min nt 3000 :: grid)
    by (unfold isel_var; rewrite Hv; reflexivity).
  split; [exact Hsel|].
  apply (run_shape_mismatch xr_sum w area a tmpl var H1 H2 H3 H4).
  rewrite Hsel. intros Heq. injection Heq as Hmin Hgrid.
  destruct Hbad as [Hlt|Hg]; [lia|exact (Hg Hgrid)].
Qed.

(** a template with 2999 monthly steps *)
Definition short_world : World float :=
  mkWorld (Ok (mkAreaFile (Some [])))
          (Ok (mkDataset (Some (mkDataVar [2999; 96; 144] [])) ∅))
          (fun _ => Ok tt).

Lemma short_template_rejected_witness :
  v_shape (isel_var 3000 (mkDataVar (F := float) [2999; 96; 144] []))
  = Z.min 2999 3000 :: [96; 144]
  /\ run sample_sum short_world = ([EvOpenArea; EvOpenTemplate], Raise ValueError).
Proof.
  apply (short_template_rejected sample_sum short_world
           (mkAreaFile (Some [])) []
           (mkDataset (Some (mkDataVar [2999; 96; 144] [])) ∅)
           (mkDataVar [2999; 96; 144] []) 2999 [96; 144]
           eq_refl eq_refl eq_refl eq_refl eq_refl).
  left. lia.
Defined.

(** ** The month tables for any calendar *)

(** lines 34 and 35 with the table of month lengths as a parameter:
    [days = month_starts dayim] and [daye = month_ends dayim] *)
Definition month_starts (l : list Z) : list Z :=
  map (fun d => int64 (d + 1)) (np_cumsum (0 :: removelast l)).
Definition month_ends (l : list Z) : list Z := np_cumsum l.

Definition total (l : list Z) : Z := fold_right Z.add 0 l.

Lemma int64_small (z : Z) : - 2 ^ 63 <= z < 2 ^ 63 -> int64 z = z.
Proof.
  intros Hz. unfold int64, wrap.
  change (2 ^ (64 - 1)) with (2 ^ 63). change (2 ^ 64) with (2 * 2 ^ 63).
  rewrite Z.mod_small; lia.
Qed.

Lemma total_nonneg (l : list Z) : Forall (fun d => 0 <= d) l -> 0 <= total l.
Proof.
  induction 1 as [|d l Hd _ IH]; cbn [total fold_right]; [lia|].
  unfold total in IH. lia.
Qed.

Lemma total_take_le (l : list Z) (n : nat) :
  Forall (fun d => 0 <= d) l -> 0 <= total (take n l) <= total l.
Proof.
  intros Hl. revert n. induction Hl as [|d l Hd Hl IH]; intros n.
  - destruct n; cbn; lia.
  - destruct n as [|n]; unfold total; cbn [firstn fold_right].
    + pose proof (total_nonneg l Hl) as Hn. unfold total in Hn. lia.
    + specialize (IH n). unfold total in IH. lia.
Qed.

Lemma length_cumsum_from (l : list Z) (acc : Z) :
  length (cumsum_from acc l) = length l.
Proof.
  revert acc. induction l as [|x l IH]; intros acc; [reflexivity|].
  cbn [cumsum_from length]. rewrite IH. reflexivity.
Qed.

Lemma cumsum_from_nth (l : list Z) :
  Forall (fun d => 0 <= d) l ->
  forall (acc : Z) (m : nat),
    0 <= acc -> acc + total l < 2 ^ 63 -> (m < length l)%nat ->
    nth m (cumsum_from acc l) 0 = acc + total (take (S m) l).
Proof.
  induction 1 as [|x l Hx Hl IH]; intros acc m Hacc Hsum Hm.
  - cbn in Hm. lia.
  - cbn [total fold_right] in Hsum.
    pose proof (total_nonneg l Hl) as Hn. unfold total in Hn.
    cbn [cumsum_from]. rewrite (int64_small (acc + x)) by lia.
    destruct m as [|m].
    + unfold total. cbn [nth firstn fold_right]. rewrite firstn_O. cbn [fold_right]. lia.
    + cbn [nth]. rewrite IH; [|lia|unfold total; lia|cbn in Hm; lia].
      unfold total; cbn [firstn fold_right]. unfold total. lia.
Qed.

Lemma take_removelast (l : list Z) (m : nat) :
  (m < length l)%nat -> take m (removelast l) = take m l.
Proof.
  revert m. induction l as [|x l IH]; intros m Hm; [reflexivity|].
  destruct l as [|y l].
  - cbn in Hm. assert (m = 0%nat) as -> by lia. reflexivity.
  - destruct m as [|m]; [reflexivity|].
    change (removelast (x :: y :: l)) with (x :: removelast (y :: l)).
    cbn [firstn]. f_equal. apply IH. cbn [length] in *. lia.
Qed.

Lemma Forall_removelast (l : list Z) :
  Forall (fun d => 0 <= d) l -> Forall (fun d => 0 <= d) (removelast l).
Proof.
  induction 1 as [|x l Hx Hl IH]; [constructor|].
  destruct l as [|y l]; [constructor|].
  change (removelast (x :: y :: l)) with (x :: removelast (y :: l)).
  constructor; assumption.
Qed.

Lemma total_removelast_le (l : list Z) :
  Forall (fun d => 0 <= d) l -> total (removelast l) <= total l.
Proof.
  induction 1 as [|x l Hx Hl IH]; [reflexivity|].
  destruct l as [|y l]; [cbn; lia|].
  change (removelast (x :: y :: l)) with (x :: removelast (y :: l)).
  cbn [total fold_right] in *. unfold total in IH. lia.
Qed.

Lemma length_removelast_cons (l : list Z) :
  l <> [] -> length (0 :: removelast l) = length l.
Proof.
  induction l as [|x l IH]; intros Hl; [destruct (Hl eq_refl)|].
  destruct l as [|y l]; [reflexivity|].
  change (removelast (x :: y :: l)) with (x :: removelast (y :: l)).
  cbn [length] in *. rewrite IH by discriminate. reflexivity.
Qed.

Lemma nth_map_in_range {A B : Type} (f : A -> B) (l : list A) (m : nat)
      (d : A) (d' : B) :
  (m < length l)%nat -> nth m (map f l) d' = f (nth m l d).
Proof.
  revert m. induction l as [|x l IH]; intros m Hm; [cbn in Hm; lia|].
  destruct m as [|m]; [reflexivity|].
  cbn [map nth]. apply IH. cbn [length] in Hm. lia.
Qed.

Lemma month_ends_nth (l : list Z) (m : nat) :
  Forall (fun d => 0 <= d) l -> total l < 2 ^ 62 -> (m < length l)%nat ->
  nth m (month_ends l) 0 = total (take (S m) l).
Proof.
  intros Hl Hsum Hm. unfold month_ends, np_cumsum.
  rewrite cumsum_from_nth by (assumption || lia). lia.
Qed.

Lemma month_starts_nth (l : list Z) (m : nat) :
  Forall (fun d => 0 <= d) l -> total l < 2 ^ 62 -> (m < length l)%nat ->
  nth m (month_starts l) 0 = total (take m l) + 1.
Proof.
  intros Hl Hsum Hm. unfold month_starts, np_cumsum.
  assert (Hne : l <> []) by (intros ->; cbn in Hm; lia).
  pose proof (total_removelast_le l Hl) as Hrl.
  pose proof (total_take_le l m Hl) as Htk.
  rewrite (nth_map_in_range (fun d => int64 (d + 1)) _ m 0 0)
    by (rewrite length_cumsum_from, length_removelast_cons; assumption).
  rewrite cumsum_from_nth;
    [ | constructor; [lia|apply Forall_removelast, Hl]
      | lia
      | cbn [total fold_right]; unfold total in *; lia
      | rewrite length_removelast_cons; assumption ].
  unfold total; cbn [firstn fold_right]. rewrite take_removelast by exact Hm.
  fold (total (take m l)). rewrite int64_small by lia. lia.
Qed.

(** The two cumulative tables of lines 34-35 fit together for any table of
    non-negative month lengths whose total stays far below 2^63: month m
    ends where its days run out, starts one day after the previous month's
    end, and end - (start - 1) is its length. *)
Theorem month_tables_fit (l : list Z) (m : nat) :
  Forall (fun d => 0 <= d) l -> total l < 2 ^ 62 -> (m < length l)%nat ->
  nth m (month_ends l) 0 = total (take (S m) l)
  /\ nth m (month_starts l) 0 - 1 = total (take m l)
  /\ nth m (month_ends l) 0 - (nth m (month_starts l) 0 - 1) = nth m l 0
  /\ ((S m < length l)%nat ->
      nth (S m) (month_starts l) 0 - 1 = nth m (month_ends l) 0).
Proof.
  intros Hl Hsum Hm.
  pose proof (month_ends_nth l m Hl Hsum Hm) as He.
  pose proof (month_starts_nth l m Hl Hsum Hm) as Hs.
  assert (Hstep : total (take (S m) l) = total (take m l) + nth m l 0).
  { clear He Hs Hsum Hl. revert m Hm.
    induction l as [|x l IH]; intros m Hm; [cbn in Hm; lia|].
    destruct m as [|m].
    { unfold total. cbn [firstn nth fold_right]. rewrite firstn_O.
      cbn [fold_right]. lia. }
    cbn [length] in Hm. specialize (IH m ltac:(lia)).
    change (take (S (S m)) (x :: l)) with (x :: take (S m) l).
    change (take (S m) (x :: l)) with (x :: take m l).
    cbn [total fold_right nth] in *. unfold total in IH. lia. }
  split; [exact He|]. split; [lia|]. split; [lia|].
  intros Hm'. rewrite (month_starts_nth l (S m) Hl Hsum Hm'). lia.
Qed.

Lemma month_tables_fit_witness :
  Forall (fun d => 0 <= d) dayim /\ total dayim < 2 ^ 62
  /\ (1 < length dayim)%nat
  /\ days = month_starts dayim /\ daye = month_ends dayim
  /\ nth 1 daye 0 - (nth 1 days 0 - 1) = nth 1 dayim 0.
Proof.
  assert (H1 : Forall (fun d => 0 <= d) dayim)
    by (unfold dayim; repeat constructor; lia).
  assert (H2 : total dayim < 2 ^ 62) by (vm_compute; reflexivity).
  assert (H3 : (1 < length dayim)%nat) by (cbn; lia).
  destruct (month_tables_fit dayim 1 H1 H2 H3) as (_ & _ & Hlen & _).
  exact (conj H1 (conj H2 (conj H3 (conj eq_refl (conj eq_refl Hlen))))).
Defined.

(** ** The annual budget in binary64 *)















(** ** The shape of the output *)

(** C5, as the code has it: whenever the script writes its output, the
    CO2_flux variable it writes holds the array co2flx computed by the loops
    of this run, of shape (3000, 96, 144); that is also the shape of the
    template's CO2_flux after dataset.isel(time=slice(0, 3000)).  The
    template's own CO2_flux is declared on the same 96 x 144 grid with
    nt >= 3000 time steps, and has the shape of the output only when
    nt = 3000. *)
Theorem output_shape (xr_sum : list (list float) -> float)
        (w : World float) (ds : Dataset float) :
  In (EvWrite ds) (fst (run xr_sum w)) ->
  exists (area : AreaFile float) (a : list (list float))
         (tmpl : Dataset float) (var out : DataVar float) (s : State float),
    open_dataset w = Ok area /\ areacella area = Some a
    /\ open_mfdataset w = Ok tmpl /\ CO2_flux tmpl = Some var
    /\ fill (xr_sum a) start_year = Ok s
    /\ CO2_flux ds = Some out /\ v_values out = co2flx s
    /\ shape3 (co2flx s) = [3000; 96; 144]
    /\ v_shape out = [3000; 96; 144]
    /\ v_shape (isel_var 3000 var) = [3000; 96; 144]
    /\ exists nt : Z,
         v_shape var = [nt; 96; 144] /\ 3000 <= nt
         /\ (v_shape out = v_shape var <-> nt = 3000).
Proof.
  intros Hin.
  destruct (written_dataset xr_sum w ds Hin)
    as (area & a & tmpl & var & s & H1 & H2 & H3 & H4 & Hs & Heq & ->).
  destruct (fill_shape3 (xr_sum a) start_year) as (s' & Hs' & Hshape).
  rewrite Hs in Hs'. apply (f_equal (fun r => match r with
                                              | Ok t => co2flx t
                                              | Raise _ => []
                                              end)) in Hs'.
  cbn beta iota in Hs'. rewrite <- Hs' in Hshape. clear s' Hs'.
  exists area, a, tmpl, var, (mkDataVar [3000; 96; 144] (co2flx s)), s.
  split; [exact H1|]. split; [exact H2|]. split; [exact H3|].
  split; [exact H4|]. split; [exact Hs|].
  split; [exact eq_refl|]. split; [exact eq_refl|].
  split; [exact Hshape|]. split; [exact eq_refl|]. split; [exact Heq|].
  cbn [v_shape].
  unfold isel_var in Heq.
  destruct (v_shape var) as [|t rest] eqn:Hv.
  { rewrite Hv in Heq. discriminate Heq. }
  cbn [v_shape] in Heq. injection Heq as Ht Hrest. subst rest.
  exists t. split; [reflexivity|]. split; [lia|].
  split; [intros Hsame; injection Hsame as Hsame; lia|intros ->; reflexivity].
Qed.

Lemma output_shape_witness :
  exists ds : Dataset float,
    In (EvWrite ds) (fst (run sample_sum sample_world))
    /\ exists (area : AreaFile float) (a : list (list float))
              (tmpl : Dataset float) (var out : DataVar float)
              (s : State float),
        open_dataset sample_world = Ok area /\ areacella area = Some a
        /\ open_mfdataset sample_world = Ok tmpl /\ CO2_flux tmpl = Some var
        /\ fill (sample_sum a) start_year = Ok s
        /\ CO2_flux ds = Some out /\ v_values out = co2flx s
        /\ shape3 (co2flx s) = [3000; 96; 144]
        /\ v_shape out = [3000; 96; 144]
        /\ v_shape (isel_var 3000 var) = [3000; 96; 144]
        /\ exists nt : Z,
             v_shape var = [nt; 96; 144] /\ 3000 <= nt
             /\ (v_shape out = v_shape var <-> nt = 3000).
Proof.
  destruct sample_world_writes as [ds Hin].
  exists ds.
  exact (conj Hin (output_shape sample_sum sample_world ds Hin)).
Defined.

(** C5 fails as stated: with a template of 3192 monthly steps the script
    writes a CO2_flux of shape (3000, 96, 144), which is not the shape
    (3192, 96, 144) of the template's CO2_flux variable. *)
Lemma output_shape_not_template :
  exists (ds tmpl : Dataset float) (var out : DataVar float),
    In (EvWrite ds) (fst (run sample_sum sample_world))
    /\ open_mfdataset sample_world = Ok tmpl /\ CO2_flux tmpl = Some var
    /\ CO2_flux ds = Some out
    /\ v_shape var = [3192; 96; 144]
    /\ v_shape out = [3000; 96; 144]
    /\ v_shape out <> v_shape var.
Proof.
  destruct sample_world_writes as [ds Hin].
  destruct (written_dataset sample_sum sample_world ds Hin)
    as (area & a & tmpl & var & s & H1 & H2 & H3 & H4 & Hs & Heq & Hds).
  exists ds, tmpl, var, (mkDataVar [3000; 96; 144] (co2flx s)).
  assert (Htmpl : tmpl = sample_template).
  { change (open_mfdataset sample_world) with (Ok sample_template) in H3.
    apply (f_equal (fun r => match r with
                             | Ok t => t
                             | Raise _ => tmpl
                             end)) in H3.
    symmetry. exact H3. }
  assert (Hvar : var = mkDataVar [3192; 96; 144] []).
  { rewrite Htmpl in H4.
    change (CO2_flux sample_template)
      with (Some (mkDataVar (F := float) [3192; 96; 144] [])) in H4.
    apply (inj Some) in H4. symmetry. exact H4. }
  split; [exact Hin|]. split; [exact H3|]. split; [exact H4|].
  split; [rewrite Hds; exact eq_refl|].
  rewrite Hvar. cbn [v_shape].
  split; [reflexivity|]. split; [reflexivity|]. discriminate.
Qed.
